(** * Zentoria AI orchestrator: intent router and RAG pipeline

    A shallow embedding of [src/core/router.py], [src/core/rag.py] and the
    parts of [src/core/llm.py] and [src/core/models.py] they call, together
    with the properties the specification states about them.

    Conventions of the embedding.
    - Python [int] is [Z]; Python [float] is IEEE binary64, written with the
      executable model of [SpecFloat] ([prec = 53], [emax = 1024]).
    - Python [str] is [string], one [ascii] per character: the texts are
      those whose characters lie below U+0100.  [dict] objects whose
      iteration order is observed (the score map) are association lists in
      insertion order, the others (payloads, metadata) are [gmap]s.
    - [async] functions that talk to a backend are computations of the
      monad [M]: a state transformer over [World] that either returns a
      value or raises a Python [Exception].
    - The vector store is part of the [World]: the points of the
      collection, its vector size once it exists, and the calls the store
      fails to answer.
    - The regular-expression engine, the text splitter and the similarity
      ranking of the vector store are libraries outside the repository;
      they are parameters of the development. *)

From Stdlib Require Import ZArith Ascii String Floats.SpecFloat.
From stdpp Require Import gmap strings list pretty sorting.

Local Open Scope Z_scope.

(** ** Python floats *)

Module PyFloat.

Definition prec : Z := 53.
Definition emax : Z := 1024.

Abbreviation float := spec_float.

(** [float(n)] for a Python [int]: the nearest double, ties to even.  Hit
    counts are bounded by the length of the scanned text, so the
    [OverflowError] of integers beyond the double range cannot occur and
    is not modelled. *)
Definition of_int (n : Z) : float := binary_normalize prec emax n 0 false.

Definition mul : float -> float -> float := SFmul prec emax.
Definition div : float -> float -> float := SFdiv prec emax.
Definition ltb : float -> float -> bool := SFltb.
Definition leb : float -> float -> bool := SFleb.

(** A decimal literal [n / 10^k] of the source denotes the double nearest
    to it, which correctly rounded division of two exact integers gives. *)
Definition lit (n : Z) (k : nat) : float :=
  div (of_int n) (of_int (10 ^ Z.of_nat k)).

Definition f0_0 : float := Eval vm_compute in of_int 0.
Definition f0_3 : float := Eval vm_compute in lit 3 1.
Definition f0_5 : float := Eval vm_compute in lit 5 1.
Definition f0_7 : float := Eval vm_compute in lit 7 1.
Definition f0_8 : float := Eval vm_compute in lit 8 1.
Definition f0_9 : float := Eval vm_compute in lit 9 1.
Definition f1_0 : float := Eval vm_compute in lit 10 1.

(** [int * float]: the integer operand is converted first. *)
Definition int_mul_float (n : Z) (x : float) : float := mul (of_int n) x.

(** The builtin [min(a, b)]: the later argument replaces the earlier one
    only when it compares strictly smaller. *)
Definition py_min (a b : float) : float := if ltb b a then b else a.

(** Membership in the closed interval [0, 1]. *)
Definition in_unit_interval (x : float) : bool := leb f0_0 x && leb x f1_0.

(** Floats that are neither NaN nor below zero. *)
Definition nonneg (x : float) : bool :=
  match x with
  | S754_zero _ => true
  | S754_infinity s => negb s
  | S754_nan => false
  | S754_finite s _ _ => negb s
  end.

End PyFloat.

(** ** Python string methods used by the router *)

Module PyStr.

(** [str.isspace()] on one character, the whitespace of [str.strip()] and
    [str.split()]: U+0009 to U+000D, U+001C to U+0020, U+0085 and U+00A0. *)
Definition is_space (c : ascii) : bool :=
  let n := nat_of_ascii c in
  ((9 <=? n) && (n <=? 13) || (28 <=? n) && (n <=? 32) || (n =? 133) || (n =? 160))%nat.

(** [str.lower()] on one character: the letters A to Z and the capital
    letters U+00C0 to U+00DE (U+00D7, the multiplication sign, is none). *)
Definition lower_char (c : ascii) : ascii :=
  let n := nat_of_ascii c in
  if ((65 <=? n) && (n <=? 90) || (192 <=? n) && (n <=? 222) && negb (n =? 215))%nat
  then ascii_of_nat (n + 32) else c.

Fixpoint lstrip (s : string) : string :=
  match s with
  | String c r => if is_space c then lstrip r else s
  | EmptyString => EmptyString
  end.

(** [rstrip] keeps a character when something non-blank follows it. *)
Fixpoint rstrip (s : string) : string :=
  match s with
  | EmptyString => EmptyString
  | String c r =>
      match rstrip r with
      | EmptyString => if is_space c then EmptyString else String c EmptyString
      | r' => String c r'
      end
  end.

Definition strip (s : string) : string := rstrip (lstrip s).

Fixpoint lower (s : string) : string :=
  match s with
  | EmptyString => EmptyString
  | String c r => String (lower_char c) (lower r)
  end.

(** [s.replace(c, "")] for a one-character pattern. *)
Fixpoint remove_char (c : ascii) (s : string) : string :=
  match s with
  | EmptyString => EmptyString
  | String d r => if Ascii.eqb c d then remove_char c r else String d (remove_char c r)
  end.

(** [s[:n]]. *)
Fixpoint slice_to (n : nat) (s : string) : string :=
  match n, s with
  | S k, String c r => String c (slice_to k r)
  | _, _ => EmptyString
  end.

End PyStr.

(** ** Computations that await a backend *)

Module Eff.

(** An instance of a subclass of Python's [Exception], by class name. *)
Inductive exn := PyException (cls : string).

Inductive outcome (A : Type) :=
| Returned (a : A)
| Raised (e : exn).
Arguments Returned {A} a.
Arguments Raised {A} e.

(** A request sent to the Ollama backend. *)
Inductive Request :=
| PostGenerate (prompt : string)
| PostEmbeddings (text : string).

(** Payload values of a vector-store point ([dict[str, Any]]). *)
Inductive pyval :=
| VStr (s : string)
| VInt (n : Z).

#[global] Instance pyval_eq_dec : EqDecision pyval.
Proof. solve_decision. Defined.

(** [PointStruct(id, vector, payload)]; a [uuid4] identifier is modelled
    by the serial number of its generation. *)
Record Point := {
  point_id : N;
  vector : list spec_float;
  payload : gmap string pyval;
}.

Record World := {
  requests : list Request;     (* requests sent to Ollama, latest first *)
  collection : list Point;     (* the points of the Qdrant collection *)
  uuids : N;                   (* identifiers generated so far *)
  dimension : option nat;      (* vector size of the collection, once it exists *)
  client_ready : bool;         (* the pipeline holds its Qdrant client *)
  store_calls : nat;           (* calls made to the vector store so far *)
  store_faults : nat -> option exn;  (* the calls the store fails, and how *)
}.

Definition with_requests (rs : list Request) (w : World) : World :=
  {| requests := rs; collection := collection w; uuids := uuids w;
     dimension := dimension w; client_ready := client_ready w;
     store_calls := store_calls w; store_faults := store_faults w |}.

Definition with_collection (c : list Point) (w : World) : World :=
  {| requests := requests w; collection := c; uuids := uuids w;
     dimension := dimension w; client_ready := client_ready w;
     store_calls := store_calls w; store_faults := store_faults w |}.

Definition with_uuids (n : N) (w : World) : World :=
  {| requests := requests w; collection := collection w; uuids := n;
     dimension := dimension w; client_ready := client_ready w;
     store_calls := store_calls w; store_faults := store_faults w |}.

Definition with_dimension (d : option nat) (w : World) : World :=
  {| requests := requests w; collection := collection w; uuids := uuids w;
     dimension := d; client_ready := client_ready w;
     store_calls := store_calls w; store_faults := store_faults w |}.

Definition with_client_ready (b : bool) (w : World) : World :=
  {| requests := requests w; collection := collection w; uuids := uuids w;
     dimension := dimension w; client_ready := b;
     store_calls := store_calls w; store_faults := store_faults w |}.

Definition with_store_calls (n : nat) (w : World) : World :=
  {| requests := requests w; collection := collection w; uuids := uuids w;
     dimension := dimension w; client_ready := client_ready w;
     store_calls := n; store_faults := store_faults w |}.

Definition M (A : Type) : Type := World -> outcome A * World.

Definition ret {A} (a : A) : M A := fun w => (Returned a, w).

Definition raise {A} (e : exn) : M A := fun w => (Raised e, w).

Definition bind {A B} (m : M A) (k : A -> M B) : M B :=
  fun w =>
    match m w with
    | (Returned a, w') => k a w'
    | (Raised e, w') => (Raised e, w')
    end.

(** [try: m  except Exception as e: handler(e)]. *)
Definition try_except {A} (m : M A) (handler : exn -> M A) : M A :=
  fun w =>
    match m w with
    | (Returned a, w') => (Returned a, w')
    | (Raised e, w') => handler e w'
    end.

Definition get : M World := fun w => (Returned w, w).

Definition modify (f : World -> World) : M unit := fun w => (Returned tt, f w).

(** [for x in xs: acc = body(acc, x)]. *)
Fixpoint for_each {A S} (xs : list A) (body : S -> A -> M S) (acc : S) : M S :=
  match xs with
  | [] => ret acc
  | x :: r => bind (body acc x) (for_each r body)
  end.

(** Nothing sent, nothing stored, no collection yet, and a store that
    answers every call. *)
Definition initial_world : World :=
  {| requests := []; collection := []; uuids := 0%N;
     dimension := None; client_ready := false;
     store_calls := 0; store_faults := fun _ => None |}.

End Eff.

Import Eff.

Declare Scope eff_scope.
Delimit Scope eff_scope with eff.
Notation "x <- m ;; k" := (Eff.bind m (fun x => k))
  (at level 100, m at next level, right associativity) : eff_scope.

(** ** [src/core/models.py] *)

Module Models.

Inductive MessageRole := USER | ASSISTANT | SYSTEM | TOOL.

Inductive AgentType := FILE | MAIL | KEY | WORKFLOW | SECURITY | CHAT | CODE | SEARCH.

#[global] Instance AgentType_eq_dec : EqDecision AgentType.
Proof. solve_decision. Defined.

(** The string each member of the [str]-mixed enum carries. *)
Definition agent_value (a : AgentType) : string :=
  match a with
  | FILE => "file" | MAIL => "mail" | KEY => "key" | WORKFLOW => "workflow"
  | SECURITY => "security" | CHAT => "chat" | CODE => "code" | SEARCH => "search"
  end.

(** Truth value of a member: that of its string, non-empty means true. *)
Definition agent_truthy (a : AgentType) : bool :=
  negb (String.eqb (agent_value a) "").

Record Message := { role : MessageRole; content : string }.

(** [Document] of the RAG pipeline; [id] is the identifier of the point
    it was read from, and [embedding] is never set there. *)
Record Document := {
  doc_ident : N;
  doc_content : string;
  doc_metadata : gmap string pyval;
  doc_score : option spec_float;
}.

End Models.

Import Models.

(** ** [src/core/llm.py] *)

Module Llm.
Section Client.

(** What the Ollama server answers to the [n]-th request it receives:
    the decoded text or vector, or the exception that [post],
    [raise_for_status] or [json] raises. *)
Variable ollama_generate : nat -> string -> outcome string.
Variable ollama_embeddings : nat -> string -> outcome (list spec_float).

Definition send (r : Request) : M nat :=
  fun w => (Returned (length (requests w)), with_requests (r :: requests w) w).

(** [@retry(stop=stop_after_attempt(3), reraise=True)]; the waits
    between attempts take time only. *)
Definition retry {A} (attempt : M A) : M A :=
  try_except attempt (fun _ => try_except attempt (fun _ => attempt)).

Definition generate_once (prompt : string) : M string :=
  (n <- send (PostGenerate prompt) ;;
   match ollama_generate n prompt with
   | Returned s => ret s
   | Raised e => raise e
   end)%eff.

Definition generate (prompt : string) : M string := retry (generate_once prompt).

Definition embed_once (texts : list string) : M (list (list spec_float)) :=
  for_each texts
    (fun embeddings text =>
       (n <- send (PostEmbeddings text) ;;
        match ollama_embeddings n text with
        | Returned v => ret (embeddings ++ [v])
        | Raised e => raise e
        end)%eff)
    [].

Definition embed (texts : list string) : M (list (list spec_float)) :=
  retry (embed_once texts).

End Client.
End Llm.

(** ** Python dictionaries whose iteration order matters *)

Module PyDict.
Section Dict.
Context {K V : Type} `{EqDecision K}.

(** Entries in insertion order; keys are pairwise distinct. *)
Definition dict := list (K * V).

Definition dict_wf (d : dict) : Prop := NoDup (map fst d).

(** [d[k] = v]: an existing key keeps its place, a new one goes last. *)
Fixpoint setitem (d : dict) (k : K) (v : V) : dict :=
  match d with
  | [] => [(k, v)]
  | (k', v') :: r =>
      if decide (k = k') then (k, v) :: r else (k', v') :: setitem r k v
  end.

(** [d.get(k)]. *)
Fixpoint get (d : dict) (k : K) : option V :=
  match d with
  | [] => None
  | (k', v) :: r => if decide (k = k') then Some v else get r k
  end.

(** [{k: v for k, v in items}]. *)
Definition comprehension (items : list (K * V)) : dict :=
  fold_left (fun d kv => setitem d (fst kv) (snd kv)) items [].

Definition keys (d : dict) : list K := map fst d.

End Dict.

(** [max(xs, key=key)]: the first element whose key no later element
    exceeds; [None] stands for the [ValueError] on an empty argument. *)
Definition max_by {K} (key : K -> Z) (xs : list K) : option K :=
  match xs with
  | [] => None
  | x :: r => Some (fold_left (fun best y => if key best <? key y then y else best) r x)
  end.

(** [sorted(items, key=lambda x: x[1], reverse=True)]: a stable sort,
    entries with equal keys stay in their original order. *)
Fixpoint insert_desc {K} (x : K * Z) (l : list (K * Z)) : list (K * Z) :=
  match l with
  | [] => [x]
  | y :: r => if snd y <=? snd x then x :: y :: r else y :: insert_desc x r
  end.

Fixpoint sorted_desc {K} (l : list (K * Z)) : list (K * Z) :=
  match l with
  | [] => []
  | x :: r => insert_desc x (sorted_desc r)
  end.

End PyDict.

(** ** [src/core/router.py] *)

Module Router.

(** [re.compile(source, re.I)] and [re.compile(source)]. *)
Record Pattern := { source : string; ignorecase : bool }.

Definition re_I (s : string) : Pattern := {| source := s; ignorecase := true |}.
Definition re_plain (s : string) : Pattern := {| source := s; ignorecase := false |}.

Definition INTENT_PATTERNS : list (AgentType * list Pattern) :=
  [ (FILE,
      [ re_I "\b(file|folder|directory|read|write|create|delete|move|copy|list)\b";
        re_I "\b(upload|download|save|open)\b";
        re_I "\.(txt|pdf|doc|json|csv|xml|yaml|md)\b" ]);
    (MAIL,
      [ re_I "\b(email|mail|send|inbox|compose|draft|reply)\b";
        re_I "\b(newsletter|notification|message)\b";
        re_I "@[a-zA-Z0-9.-]+\.[a-zA-Z]{2,}" ]);
    (KEY,
      [ re_I "\b(api.?key|secret|token|credential|password)\b";
        re_I "\b(generate|create|rotate|revoke)\s+(key|token|secret)\b";
        re_I "\b(authentication|authorization|auth)\b" ]);
    (WORKFLOW,
      [ re_I "\b(workflow|automation|n8n|trigger|pipeline)\b";
        re_I "\b(schedule|cron|job|task)\b";
        re_I "\b(webhook|integrate|connect)\b" ]);
    (SECURITY,
      [ re_I "\b(permission|access|role|privilege)\b";
        re_I "\b(security|firewall|encrypt|decrypt)\b";
        re_I "\b(audit|log|monitor|alert)\b" ]);
    (CODE,
      [ re_I "\b(code|program|function|class|method)\b";
        re_I "\b(python|javascript|typescript|rust|go|java)\b";
        re_I "\b(debug|fix|refactor|optimize|review)\s+code\b";
        re_I "```[\s\S]*```" ]);
    (SEARCH,
      [ re_I "\b(search|find|look\s+for|query)\b";
        re_I "\b(document|docs|knowledge|information)\b";
        re_plain "\?\s*$" ]);
    (CHAT,
      [ re_I "\b(hello|hi|hey|how\s+are\s+you|thanks|bye)\b";
        re_I "\b(explain|tell\s+me|what\s+is|help)\b" ]) ].

Definition AGENT_PRIORITIES : list (AgentType * Z) :=
  [ (CODE, 10); (FILE, 9); (MAIL, 8); (KEY, 8);
    (WORKFLOW, 7); (SECURITY, 7); (SEARCH, 5); (CHAT, 1) ].

(** The decision metadata dictionary: ["method"], ["scores"] (absent on
    the forced path) and ["confidence"] (set before every return). *)
Record Metadata := {
  method : string;
  scores : option (list (AgentType * Z));
  confidence : option spec_float;
}.

Definition set_method (m : Metadata) (s : string) : Metadata :=
  {| method := s; scores := scores m; confidence := confidence m |}.

Definition set_confidence (m : Metadata) (c : spec_float) : Metadata :=
  {| method := method m; scores := scores m; confidence := Some c |}.

Section CommandRouter.

(** [pattern.findall(text)] of the [re] module; only the number of
    matches is used. *)
Variable Match : Type.
Variable findall : Pattern -> string -> list Match.

Variable ollama_generate : nat -> string -> outcome string.

(** [self._get_llm()]: builds the client object when there is none yet;
    no request is sent. *)
Definition _get_llm : M unit := ret tt.

Definition pattern_score (patterns : list Pattern) (text : string) : Z :=
  fold_left (fun score pattern => score + Z.of_nat (length (findall pattern text)))
            patterns 0.

Definition _pattern_match (text : string) : list (AgentType * Z) :=
  fold_left
    (fun scores entry =>
       let score := pattern_score (snd entry) text in
       if 0 <? score then PyDict.setitem scores (fst entry) score else scores)
    INTENT_PATTERNS [].

Definition _resolve_conflicts (scores : list (AgentType * Z)) : AgentType :=
  match scores with
  | [] => CHAT
  | _ :: _ =>
      let weighted_scores :=
        PyDict.comprehension
          (map (fun item =>
                  (fst item,
                   snd item * default 1 (PyDict.get AGENT_PRIORITIES (fst item))))
               scores) in
      (* the key function reads [weighted_scores[x]] for its own keys *)
      default CHAT
        (PyDict.max_by (fun x => default 0 (PyDict.get weighted_scores x))
                       (PyDict.keys weighted_scores))
  end.

Definition agent_descriptions : string :=
"
Available agents:
- file: File and folder operations (read, write, create, delete, list files)
- mail: Email operations (send, compose, manage inbox)
- key: API key and credential management (generate, rotate, revoke keys)
- workflow: Workflow automation and n8n triggers
- security: Permission and access control
- code: Code generation, review, and debugging
- search: Document search and information retrieval
- chat: General conversation and Q&A
".

Definition classify_prompt (text : string) : string :=
  "Classify the following user request into one of the available agents.
Reply with ONLY the agent name (lowercase, one word).

" +:+ agent_descriptions +:+ "

User request: " +:+ text +:+ "

Agent:".

Definition agent_map : list (string * AgentType) :=
  [ ("file", FILE); ("mail", MAIL); ("email", MAIL); ("key", KEY);
    ("workflow", WORKFLOW); ("security", SECURITY); ("code", CODE);
    ("search", SEARCH); ("chat", CHAT) ].

Definition normalize_reply (response : string) : string :=
  PyStr.remove_char " " (PyStr.remove_char ":" (PyStr.lower (PyStr.strip response))).

Definition _llm_classify (text : string) (context : option (list Message))
  : M (option AgentType) :=
  (_ <- _get_llm ;;
   try_except
     (response <- Llm.generate ollama_generate (classify_prompt text) ;;
      let agent_name := normalize_reply response in
      ret (PyDict.get agent_map agent_name))
     (fun _ => ret None))%eff.

(** The body of [route] below the [force_agent] test. *)
Definition route_by_patterns (text : string) (context : option (list Message))
  : M (AgentType * Metadata) :=
  let scores := _pattern_match text in
  let metadata := {| method := "pattern"; scores := Some scores; confidence := None |} in
  match scores with
  | [] =>
      (* no patterns matched, try LLM classification *)
      (llm_result <- _llm_classify text context ;;
       match llm_result with
       | Some agent =>
           if agent_truthy agent then
             ret (agent, set_confidence (set_method metadata "llm") PyFloat.f0_8)
           else
             ret (CHAT, set_confidence (set_method metadata "default") PyFloat.f0_5)
       | None =>
           ret (CHAT, set_confidence (set_method metadata "default") PyFloat.f0_5)
       end)%eff
  | [(agent, score)] =>
      (* single match: [scores[agent]] is [score] *)
      ret (agent,
           set_confidence metadata
             (PyFloat.py_min (PyFloat.int_mul_float score PyFloat.f0_3) PyFloat.f1_0))
  | _ :: _ :: _ =>
      (* multiple matches: check if significantly different *)
      let sorted_scores := PyDict.sorted_desc scores in
      match sorted_scores with
      | [] => raise (PyException "IndexError")
      | top :: rest =>
          let top_score := snd top in
          let second_score :=
            match rest with
            | second :: _ => snd second
            | [] => 0
            end in
          if second_score * 2 <? top_score then
            ret (fst top, set_confidence metadata PyFloat.f0_9)
          else
            let agent := _resolve_conflicts scores in
            ret (agent,
                 set_method (set_confidence metadata PyFloat.f0_7) "priority_weighted")
      end
  end.

Definition route (text : string) (context : option (list Message))
           (force_agent : option AgentType) : M (AgentType * Metadata) :=
  match force_agent with
  | Some agent =>
      if agent_truthy agent then
        ret (agent,
             {| method := "forced"; scores := None; confidence := Some PyFloat.f1_0 |})
      else route_by_patterns text context
  | None => route_by_patterns text context
  end.

End CommandRouter.
End Router.

(** ** [src/core/rag.py] *)

Module Rag.

(** The fields of [Settings] the pipeline reads. *)
Record Settings := {
  rag_top_k : Z;
  rag_score_threshold : spec_float;
  qdrant_embedding_size : nat;
}.

(** A hit of [qdrant.search]. *)
Record ScoredPoint := {
  hit_id : N;
  hit_score : spec_float;
  hit_payload : option (gmap string pyval);
}.

(** An entry of the citation list of [query]. *)
Record Citation := {
  cit_id : N;
  cit_source : pyval;
  cit_content : string;
  cit_score : option spec_float;
}.

(** [FieldCondition(key, match=MatchValue(value))] on a point. *)
Definition field_matches (key : string) (value : pyval) (p : Point) : bool :=
  bool_decide (payload p !! key = Some value).

Definition float_truthy (x : spec_float) : bool :=
  match x with
  | S754_zero _ => false
  | _ => true
  end.

(** ** The vector store

    One collection, the one named by the settings.  A call to the store
    fails when [store_faults] says so; a call on a collection that does
    not exist, or with a vector of another size than the collection's, is
    rejected. *)

(** The answer of the store to a call it rejects. *)
Definition rejected : exn := PyException "UnexpectedResponse".

(** One awaited call to the store. *)
Definition store_call : M unit :=
  fun w =>
    (match store_faults w (store_calls w) with
     | Some e => Raised e
     | None => Returned tt
     end,
     with_store_calls (S (store_calls w)) w).

Definition set_collection (c : list Point) : M unit := modify (with_collection c).

(** [str(uuid.uuid4())]. *)
Definition uuid4 : M N :=
  fun w => (Returned (uuids w), with_uuids (N.succ (uuids w)) w).

(** [qdrant.get_collections()], and whether the configured collection is
    among the names. *)
Definition qdrant_has_collection : M bool :=
  (_ <- store_call ;;
   w <- get ;;
   ret (bool_decide (is_Some (dimension w))))%eff.

(** [qdrant.create_collection(vectors_config=VectorParams(size, COSINE))]. *)
Definition qdrant_create_collection (size : nat) : M unit :=
  (_ <- store_call ;;
   w <- get ;;
   match dimension w with
   | Some _ => raise rejected
   | None => modify (with_dimension (Some size))
   end)%eff.

Fixpoint upsert_point (c : list Point) (p : Point) : list Point :=
  match c with
  | [] => [p]
  | q :: r => if decide (point_id q = point_id p) then p :: r else q :: upsert_point r p
  end.

(** [qdrant.upsert(points=points)]. *)
Definition qdrant_upsert (points : list Point) : M unit :=
  (_ <- store_call ;;
   w <- get ;;
   match dimension w with
   | None => raise rejected
   | Some d =>
       if forallb (fun p => (length (vector p) =? d)%nat) points
       then set_collection (fold_left upsert_point points (collection w))
       else raise rejected
   end)%eff.

(** [qdrant.scroll(scroll_filter=Filter(must=[cond]), limit=limit)]: one
    page of matching points and the offset of the next page, if any. *)
Definition qdrant_scroll (key : string) (value : pyval) (limit : nat)
  : M (list Point * option N) :=
  (_ <- store_call ;;
   w <- get ;;
   match dimension w with
   | None => raise rejected
   | Some _ =>
       let matching := List.filter (field_matches key value) (collection w) in
       ret (take limit matching, point_id <$> head (drop limit matching))
   end)%eff.

(** [qdrant.delete(points_selector=point_ids)]. *)
Definition qdrant_delete (point_ids : list N) : M unit :=
  (_ <- store_call ;;
   w <- get ;;
   match dimension w with
   | None => raise rejected
   | Some _ =>
       set_collection
         (List.filter (fun p => negb (bool_decide (point_id p ∈ point_ids))) (collection w))
   end)%eff.

Section RAGPipeline.

Variable settings : Settings.

(** [RecursiveCharacterTextSplitter.split_text] of langchain. *)
Variable split_text : string -> list string.

(** The similarity ranking of [qdrant.search]. *)
Variable qdrant_rank :
  list Point -> list spec_float -> option (list (string * pyval)) -> Z -> spec_float ->
  list ScoredPoint.

Variable ollama_generate : nat -> string -> outcome string.
Variable ollama_embeddings : nat -> string -> outcome (list spec_float).

Definition _get_llm : M unit := ret tt.

(** [self._ensure_collection()]. *)
Definition _ensure_collection : M unit :=
  (w <- get ;;
   if negb (client_ready w) then ret tt
   else
     present <- qdrant_has_collection ;;
     if present then ret tt
     else qdrant_create_collection (qdrant_embedding_size settings))%eff.

(** [self._get_qdrant()]: on first use the client is built and kept, and
    the collection ensured. *)
Definition _get_qdrant : M unit :=
  (w <- get ;;
   if client_ready w then ret tt
   else
     _ <- modify (with_client_ready true) ;;
     _ensure_collection)%eff.

(** [qdrant.search(query_vector, query_filter, limit, score_threshold)]. *)
Definition qdrant_search (query_vector : list spec_float)
           (query_filter : option (list (string * pyval))) (limit : Z)
           (score_threshold : spec_float) : M (list ScoredPoint) :=
  (_ <- store_call ;;
   w <- get ;;
   match dimension w with
   | None => raise rejected
   | Some d =>
       if (length query_vector =? d)%nat
       then ret (qdrant_rank (collection w) query_vector query_filter limit score_threshold)
       else raise rejected
   end)%eff.

Definition chunk_payload (doc_id chunk : string) (i total : nat)
           (metadata : option (gmap string pyval)) : gmap string pyval :=
  (* the entries of [metadata], unpacked last, replace equal keys *)
  default ∅ metadata ∪
  <["doc_id" := VStr doc_id]>
    (<["content" := VStr chunk]>
       (<["chunk_index" := VInt (Z.of_nat i)]>
          (<["total_chunks" := VInt (Z.of_nat total)]> ∅))).

(** [enumerate(zip(chunks, embeddings))]. *)
Definition enumerate {A} (l : list A) : list (nat * A) := zip (seq 0 (length l)) l.

Definition index_document (doc_id content : string)
           (metadata : option (gmap string pyval)) : M Z :=
  (_ <- _get_llm ;;
   _ <- _get_qdrant ;;
   let chunks := split_text content in
   match chunks with
   | [] => ret 0
   | _ :: _ =>
       embeddings <- Llm.embed ollama_embeddings chunks ;;
       points <- for_each (enumerate (zip chunks embeddings))
                   (fun points item =>
                      let '(i, (chunk, embedding)) := item in
                      point_id <- uuid4 ;;
                      let payload := chunk_payload doc_id chunk i (length chunks) metadata in
                      ret (points ++ [ {| point_id := point_id;
                                          vector := embedding;
                                          payload := payload |} ]))
                   [] ;;
       _ <- qdrant_upsert points ;;
       ret (Z.of_nat (length chunks))
   end)%eff.

Definition search (query : string) (top_k : option Z)
           (score_threshold : option spec_float) (doc_id : option string)
           (metadata_filter : option (gmap string pyval)) : M (list Document) :=
  (_ <- _get_llm ;;
   _ <- _get_qdrant ;;
   let top_k :=
     match top_k with
     | Some k => if k =? 0 then rag_top_k settings else k
     | None => rag_top_k settings
     end in
   let score_threshold :=
     match score_threshold with
     | Some t => if float_truthy t then t else rag_score_threshold settings
     | None => rag_score_threshold settings
     end in
   embeddings <- Llm.embed ollama_embeddings [query] ;;
   match embeddings with
   | [] => raise (PyException "IndexError")
   | query_embedding :: _ =>
       let doc_conditions :=
         match doc_id with
         | Some d => if String.eqb d "" then [] else [("doc_id"%string, VStr d)]
         | None => []
         end in
       let filter_conditions :=
         doc_conditions ++ map_to_list (default ∅ metadata_filter) in
       let query_filter :=
         match filter_conditions with
         | [] => None
         | _ :: _ => Some filter_conditions
         end in
       results <- qdrant_search query_embedding query_filter top_k score_threshold ;;
       for_each results
         (fun documents hit =>
            let payload := default ∅ (hit_payload hit) in
            match default (VStr "") (payload !! "content"%string) with
            | VStr text =>
                ret (documents ++
                     [ {| doc_ident := hit_id hit;
                          doc_content := text;
                          doc_metadata := delete "content"%string payload;
                          doc_score := Some (hit_score hit) |} ])
            | VInt _ =>
                (* pydantic rejects a non-string [content] *)
                raise (PyException "ValidationError")
            end)
         []
   end)%eff.

(** [str(v)] inside an f-string. *)
Definition pyval_str (v : pyval) : string :=
  match v with
  | VStr s => s
  | VInt n => pretty n
  end.

Definition doc_source (doc : Document) : pyval :=
  default (VStr "unknown") (doc_metadata doc !! "doc_id"%string).

(** [sep.join(parts)]. *)
Fixpoint join (sep : string) (parts : list string) : string :=
  match parts with
  | [] => ""
  | [p] => p
  | p :: r => p ++ sep ++ join sep r
  end.

Definition format_context (documents : list Document) : string :=
  match documents with
  | [] => ""
  | _ :: _ =>
      let context_parts :=
        map (fun item =>
               "[Source " +:+ pretty (S (fst item)) +:+ ": " +:+
               pyval_str (doc_source (snd item)) +:+ "]
" +:+ doc_content (snd item))
            (enumerate documents) in
      join "

---

" context_parts
  end.

Definition str_truthy (s : string) : bool := negb (String.eqb s "").

Definition build_rag_prompt (query context : string)
           (system_instructions : option string) : string :=
  let parts :=
    match system_instructions with
    | Some i => if str_truthy i then [i] else []
    | None => []
    end in
  let parts :=
    if str_truthy context then
      parts ++
      [ "Use the following context to answer the question. " +:+
        "If the context doesn't contain relevant information, " +:+
        "say so and answer based on your general knowledge.

" +:+ "Context:
" +:+ context ]
    else parts in
  let parts := parts ++ [ "Question: " +:+ query ] in
  join "

" parts.

(** The ["content"] entry of a citation. *)
Definition preview (text : string) : string :=
  if (200 <? String.length text)%nat then PyStr.slice_to 200 text +:+ "..." else text.

Definition citation (doc : Document) : Citation :=
  {| cit_id := doc_ident doc;
     cit_source := doc_source doc;
     cit_content := preview (doc_content doc);
     cit_score := doc_score doc |}.

Definition query (q : string) (system_instructions : option string)
           (top_k : option Z) (include_citations : bool)
  : M (string * list Citation) :=
  (documents <- search q top_k None None None ;;
   let context := format_context documents in
   let prompt := build_rag_prompt q context system_instructions in
   _ <- _get_llm ;;
   response <- Llm.generate ollama_generate prompt ;;
   let citations :=
     if include_citations then
       fold_left (fun citations doc => citations ++ [citation doc]) documents []
     else [] in
   ret (response, citations))%eff.

Definition delete_document (doc_id : string) : M Z :=
  (_ <- _get_qdrant ;;
   result <- qdrant_scroll "doc_id" (VStr doc_id) 1000 ;;
   let '(points, _) := result in
   let point_ids := map point_id points in
   _ <- match point_ids with
        | [] => ret tt
        | _ :: _ => qdrant_delete point_ids
        end ;;
   ret (Z.of_nat (length point_ids)))%eff.

End RAGPipeline.
End Rag.

(** ** Notions used to state the properties *)

Module Notions.
Import Router.

(** The static weight [AGENT_PRIORITIES.get(agent, 1)]. *)
Definition priority (a : AgentType) : Z := default 1 (PyDict.get AGENT_PRIORITIES a).

(** Raw score times priority weight. *)
Definition weighted (item : AgentType * Z) : Z := snd item * priority (fst item).

(** Position of a category among the keys of [INTENT_PATTERNS]. *)
Definition table_index (a : AgentType) : nat :=
  default 0%nat (fst <$> list_find (fun e => fst e = a) INTENT_PATTERNS).

(** What one iteration of the scoring loop contributes. *)
Definition scored {Match} (findall : Pattern -> string -> list Match) (text : string)
           (entry : AgentType * list Pattern) : option (AgentType * Z) :=
  let score := pattern_score Match findall (snd entry) text in
  if 0 <? score then Some (fst entry, score) else None.

(** A stand-in for the regular-expression engine in examples: the number
    of matches of a pattern is read from a table keyed by its source. *)
Definition table_engine (hits : list (string * nat)) (p : Pattern) (text : string)
  : list unit :=
  replicate (default 0%nat (PyDict.get hits (source p))) tt.

(** "save the message": one file hit and one mail hit. *)
Definition engine_save_message : Pattern -> string -> list unit :=
  table_engine [ ("\b(upload|download|save|open)\b"%string, 1%nat);
                 ("\b(newsletter|notification|message)\b"%string, 1%nat) ].

(** "hello there": one chat hit. *)
Definition engine_hello : Pattern -> string -> list unit :=
  table_engine [ ("\b(hello|hi|hey|how\s+are\s+you|thanks|bye)\b"%string, 1%nat) ].

(** "mail the token": one mail hit and one key hit. *)
Definition engine_mail_token : Pattern -> string -> list unit :=
  table_engine [ ("\b(email|mail|send|inbox|compose|draft|reply)\b"%string, 1%nat);
                 ("\b(api.?key|secret|token|credential|password)\b"%string, 1%nat) ].

(** A text in which no pattern matches. *)
Definition engine_no_match : Pattern -> string -> list unit := table_engine [].

(** A splitter for examples: one chunk per character. *)
Definition char_splitter (content : string) : list string :=
  map (fun c => String c EmptyString) (list_ascii_of_string content).

(** A text of [n] characters. *)
Definition text_of_length (n : nat) : string :=
  string_of_list_ascii (replicate n "x"%char).

(** An embedding backend that answers every text with the empty vector. *)
Definition null_embeddings : nat -> string -> outcome (list spec_float) :=
  fun _ _ => Returned [].

(** A vector of the size the settings configure. *)
Definition sized_vector (settings : Rag.Settings) : list spec_float :=
  replicate (Rag.qdrant_embedding_size settings) PyFloat.f0_5.

(** An embedding backend that answers every text with that vector. *)
Definition constant_embeddings (settings : Rag.Settings)
  : nat -> string -> outcome (list spec_float) :=
  fun _ _ => Returned (sized_vector settings).

(** A ranking that returns every point of the collection, in order. *)
Definition rank_all (points : list Point) (query_vector : list spec_float)
           (query_filter : option (list (string * pyval))) (limit : Z)
           (score_threshold : spec_float) : list Rag.ScoredPoint :=
  map (fun p => {| Rag.hit_id := point_id p;
                   Rag.hit_score := PyFloat.f0_9;
                   Rag.hit_payload := Some (payload p) |}) points.

(** The defaults of [src/config.py]. *)
Definition default_settings : Rag.Settings :=
  {| Rag.rag_top_k := 5; Rag.rag_score_threshold := PyFloat.f0_7;
     Rag.qdrant_embedding_size := 768 |}.

(** A point of document ["doc"] whose content has [n] characters. *)
Definition document_point (n : nat) : Point :=
  {| point_id := 0%N; vector := sized_vector default_settings;
     payload := <["doc_id" := VStr "doc"]>
                  (<["content" := VStr (text_of_length n)]> ∅) |}.

(** A collection of the default vector size holding that point, behind a
    store that answers. *)
Definition world_with_document (n : nat) : World :=
  {| requests := [];
     collection := [ document_point n ];
     uuids := 1%N;
     dimension := Some (Rag.qdrant_embedding_size default_settings);
     client_ready := true;
     store_calls := 0;
     store_faults := fun _ => None |}.

(** A vector store that cannot be reached: every call fails. *)
Definition store_down : World :=
  {| requests := []; collection := []; uuids := 0%N;
     dimension := None; client_ready := false;
     store_calls := 0;
     store_faults := fun _ => Some (PyException "ConnectError") |}.

(** A backend that answers every generation request with the same text. *)
Definition constant_reply (reply : string) : nat -> string -> outcome string :=
  fun _ _ => Returned reply.

(** A backend that is unreachable. *)
Definition unreachable {A} : nat -> string -> outcome A :=
  fun _ _ => Raised (PyException "ConnectError").

End Notions.

(** ** Further stand-ins for the examples *)

Module Examples.
Import Router.

(** "read, copy and list the files please, thanks": three file hits and one
    chat hit. *)
Definition engine_file_request : Pattern -> string -> list unit :=
  Notions.table_engine
    [ ("\b(file|folder|directory|read|write|create|delete|move|copy|list)\b"%string, 3%nat);
      ("\b(hello|hi|hey|how\s+are\s+you|thanks|bye)\b"%string, 1%nat) ].

(** An index in which nothing is similar to the query. *)
Definition rank_none (points : list Point) (query_vector : list spec_float)
           (query_filter : option (list (string * pyval))) (limit : Z)
           (score_threshold : spec_float) : list Rag.ScoredPoint := [].

(** The point held by [Notions.world_with_document 3]. *)
Definition stored_point : Point := Notions.document_point 3.

(** A reply in capitals, with a colon, between a space and a no-break
    space (U+00A0). *)
Definition reply_mail : string := " MAIL:" +:+ String "160"%char EmptyString.

(** A ranking that returns the first [limit] points of the collection. *)
Definition rank_first (points : list Point) (query_vector : list spec_float)
           (query_filter : option (list (string * pyval))) (limit : Z)
           (score_threshold : spec_float) : list Rag.ScoredPoint :=
  take (Z.to_nat limit)
       (Notions.rank_all points query_vector query_filter limit score_threshold).

(** A point of another document. *)
Definition other_point : Point :=
  {| point_id := 1%N; vector := Notions.sized_vector Notions.default_settings;
     payload := <["doc_id" := VStr "other"]> (<["content" := VStr "y"]> ∅) |}.

(** A collection holding a point of ["doc"] and a point of ["other"]. *)
Definition world_with_two_documents : World :=
  with_uuids 2 (with_collection [stored_point; other_point] (Notions.world_with_document 3)).

(** Metadata that names a document of its own. *)
Definition foreign_metadata : option (gmap string pyval) :=
  Some (<["doc_id" := VStr "other"]> ∅).

End Examples.

(** ** Notions for the vector store *)

Module RagNotions.
Import Rag.

(** The store answers every call. *)
Definition store_answers (w : World) : Prop := forall n, store_faults w n = None.

(** The embedding backend answers every request, with a vector of the
    configured size. *)
Definition embeddings_sized (settings : Settings)
           (ollama_embeddings : nat -> string -> outcome (list spec_float)) : Prop :=
  forall n t, exists v,
    ollama_embeddings n t = Returned v /\ length v = qdrant_embedding_size settings.

(** The collection has the configured vector size, or does not exist yet
    and the pipeline, on obtaining its client, will create it. *)
Definition store_ready (settings : Settings) (w : World) : Prop :=
  dimension w = Some (qdrant_embedding_size settings) \/
  (dimension w = None /\ client_ready w = false).

(** Every stored identifier was generated earlier: the next [uuid4] is
    new to the collection. *)
Definition store_fresh (w : World) : Prop :=
  Forall (fun p => (point_id p < uuids w)%N) (collection w).

(** The points [index_document] prepares for the chunks from position [i]
    on, the first of them receiving the identifier [base]. *)
Fixpoint points_from (doc_id : string) (total : nat) (metadata : option (gmap string pyval))
         (base : N) (i : nat) (items : list (string * list spec_float)) : list Point :=
  match items with
  | [] => []
  | (chunk, embedding) :: rest =>
      {| point_id := base; vector := embedding;
         payload := chunk_payload doc_id chunk i total metadata |}
      :: points_from doc_id total metadata (N.succ base) (S i) rest
  end.

(** The points of the collection stored under a document identifier. *)
Definition points_of (doc_id : string) (w : World) : list Point :=
  List.filter (field_matches "doc_id" (VStr doc_id)) (collection w).

(** The caller's metadata leaves the key to the pipeline. *)
Definition metadata_keeps (key : string) (metadata : option (gmap string pyval)) : Prop :=
  default ∅ metadata !! key = None.

End RagNotions.

(** ** [CommandRouter.parse_command] of [src/core/router.py] *)

Module Commands.

(** [text.split()]: the maximal runs of characters that are not
    whitespace; [cur] is the run being read. *)
Fixpoint words_from (s : string) (cur : option string) : list string :=
  match s with
  | EmptyString => option_list cur
  | String c r =>
      if PyStr.is_space c then option_list cur ++ words_from r None
      else words_from r (Some (default EmptyString cur +:+ String c EmptyString))
  end.

Definition split (text : string) : list string := words_from text None.

(** The suffix of [s] that starts at its first opening brace. *)
Fixpoint from_first_brace (s : string) : option string :=
  match s with
  | EmptyString => None
  | String c r => if Ascii.eqb c "{" then Some s else from_first_brace r
  end.

(** The prefix of [s] that ends at its last closing brace. *)
Fixpoint upto_last_brace (s : string) : option string :=
  match s with
  | EmptyString => None
  | String c r =>
      match upto_last_brace r with
      | Some p => Some (String c p)
      | None => if Ascii.eqb c "}" then Some (String c EmptyString) else None
      end
  end.

(** [re.search(r"\{[\s\S]*\}", response)] and [.group()]: the leftmost
    match starts at the first opening brace and, being greedy over every
    character, ends at the last closing brace. *)
Definition search_braces (response : string) : option string :=
  from_first_brace response ≫= upto_last_brace.

(** What [parse_command] returns: the object decoded from the model's
    reply, or the dictionary built from the words of the text (its
    ["parameters"] entry is always the empty dictionary). *)
Inductive Command (Json : Type) :=
| Decoded (j : Json)
| Words (action : string) (target : option string) (raw : string).
Arguments Decoded {Json} j.
Arguments Words {Json} action target raw.

Section ParseCommand.

(** [json.loads] of the standard library. *)
Variable Json : Type.
Variable json_loads : string -> outcome Json.

Variable ollama_generate : nat -> string -> outcome string.

Definition parse_prompt (text : string) : string :=
  "Parse the following command and extract:
1. The main action (verb)
2. The target/object
3. Any parameters or options

Reply in JSON format with keys: action, target, parameters

Command: " +:+ text +:+ "

JSON:".

(** The dictionary after the [try] statement. *)
Definition fallback (text : string) : Command Json :=
  let words := split text in
  Words (default "unknown"%string (words !! 0%nat)) (words !! 1%nat) text.

Definition parse_command (text : string) : M (Command Json) :=
  (_ <- Router._get_llm ;;
   (* [None] stands for leaving the [try] statement without a [return] *)
   found <- try_except
              (response <- Llm.generate ollama_generate (parse_prompt text) ;;
               match search_braces response with
               | Some group =>
                   match json_loads group with
                   | Returned j => ret (Some (Decoded j))
                   | Raised e => raise e
                   end
               | None => ret None
               end)
              (fun _ => ret None) ;;
   match found with
   | Some command => ret command
   | None => ret (fallback text)
   end)%eff.

End ParseCommand.
End Commands.

(** ** [SearchAgent] of [src/agents/search.py] *)

Module SearchAgent.
Import Rag.

(** The text of an ["error"] entry: a fixed message, or a prefix followed
    by [str(e)] of the exception caught. *)
Inductive ErrorText :=
| ErrPlain (message : string)
| ErrException (prefix : string) (e : exn).

(** A result dictionary with its entries ["error"], ["message"],
    ["citations"] and ["count"], each present or not. *)
Record Result := {
  res_error : option ErrorText;
  res_message : option string;
  res_citations : option (list Citation);
  res_count : option Z;
}.

Definition system_instructions : string :=
  "You are a helpful assistant answering questions based on the provided context. " +:+
  "If the context doesn't contain relevant information, say so and provide a general answer if possible. " +:+
  "Always be accurate and cite your sources.".

Definition citation_text (citations : list Citation) : string :=
  "

**Sources:**
" +:+ join "
" (map (fun item => "[" +:+ pretty (S (fst item)) +:+ "] " +:+ pyval_str (cit_source (snd item)))
       (enumerate citations)).

Section Agent.
Variable settings : Settings.
Variable split_text : string -> list string.
Variable qdrant_rank :
  list Point -> list spec_float -> option (list (string * pyval)) -> Z -> spec_float ->
  list ScoredPoint.
Variable ollama_generate : nat -> string -> outcome string.
Variable ollama_embeddings : nat -> string -> outcome (list spec_float).

(** The answer of the server to a generation request that carries a
    system prompt. *)
Variable ollama_generate_system : nat -> string -> string -> outcome string.

(** [llm.generate(prompt, system_prompt=system_prompt)]. *)
Definition generate_with_system (prompt system_prompt : string) : M string :=
  Llm.retry
    (n <- Llm.send (PostGenerate prompt) ;;
     match ollama_generate_system n system_prompt prompt with
     | Returned s => ret s
     | Raised e => raise e
     end)%eff.

(** [self._get_rag()] and [self._get_llm()] build the objects on first
    use; no request is sent. *)
Definition _get_rag : M unit := ret tt.
Definition _get_llm : M unit := ret tt.

(** [_answer_question(query, params)]; [top_k] is [params.get("top_k")],
    an integer when present. *)
Definition _answer_question (q : string) (top_k : option Z) : M Result :=
  (_ <- _get_rag ;;
   try_except
     (answer <- query settings qdrant_rank ollama_generate ollama_embeddings
                      q (Some system_instructions) top_k true ;;
      let '(response, citations) := answer in
      let response :=
        match citations with
        | [] => response
        | _ :: _ => response +:+ citation_text citations
        end in
      ret {| res_error := None;
             res_message := Some response;
             res_citations := Some citations;
             res_count := Some (Z.of_nat (length citations)) |})
     (fun _ =>
        (* fallback to direct LLM without RAG *)
        _ <- _get_llm ;;
        response <- generate_with_system ("Answer this question: " +:+ q)
                                         system_instructions ;;
        ret {| res_error := None;
               res_message :=
                 Some (response +:+ "

*Note: Answered without document context.*");
               res_citations := Some [];
               res_count := Some 0 |}))%eff.

Definition error_result (e : ErrorText) : Result :=
  {| res_error := Some e; res_message := None; res_citations := None; res_count := None |}.

(** [not value] for [params.get(key)], a string when present. *)
Definition missing (value : option string) : bool :=
  match value with
  | Some s => String.eqb s ""
  | None => true
  end.

(** [_index_document(params)], with [doc_id] and [content] the entries of
    [params] under these keys. *)
Definition _index_document (doc_id content : option string) : M Result :=
  if missing doc_id then ret (error_result (ErrPlain "Please specify a document ID"))
  else if missing content then
    ret (error_result (ErrPlain "Please provide document content to index"))
  else
    (_ <- _get_rag ;;
     try_except
       (chunks <- index_document settings split_text ollama_embeddings
                                 (default ""%string doc_id) (default ""%string content) None ;;
        ret {| res_error := None;
               res_message :=
                 Some ("**Document Indexed**

" +:+ "- Document ID: " +:+ default ""%string doc_id +:+ "
" +:+ "- Chunks created: " +:+ pretty chunks +:+ "
" +:+ "- Status: Indexed and searchable");
               res_citations := None;
               res_count := Some chunks |})
       (fun e => ret (error_result (ErrException "Failed to index document: " e))))%eff.

(** [_delete_document(params)]. *)
Definition _delete_document (doc_id : option string) : M Result :=
  if missing doc_id then
    ret (error_result (ErrPlain "Please specify a document ID to delete"))
  else
    (_ <- _get_rag ;;
     try_except
       (deleted <- delete_document settings (default ""%string doc_id) ;;
        ret {| res_error := None;
               res_message :=
                 Some ("**Document Deleted**

" +:+ "- Document ID: " +:+ default ""%string doc_id +:+ "
" +:+ "- Chunks removed: " +:+ pretty deleted);
               res_citations := None;
               res_count := Some deleted |})
       (fun e => ret (error_result (ErrException "Failed to delete document: " e))))%eff.

End Agent.
End SearchAgent.


(** * Properties *)

(** ** Floating-point facts used by the confidence bounds *)

Module PyFloatFacts.
Import PyFloat.

Lemma shr_1_nonneg mrs : 0 <= shr_m mrs -> 0 <= shr_m (shr_1 mrs).
Proof.
  destruct mrs as [m r s]; simpl.
  destruct m as [|p|p]; simpl; try lia; destruct p; simpl; lia.
Qed.

Lemma iter_pos_shr_1_nonneg p : forall mrs,
  0 <= shr_m mrs -> 0 <= shr_m (SpecFloat.iter_pos shr_1 p mrs).
Proof.
  induction p as [p IH|p IH|]; intros mrs H; simpl.
  - apply IH, IH, shr_1_nonneg, H.
  - apply IH, IH, H.
  - apply shr_1_nonneg, H.
Qed.

Lemma shr_fexp_nonneg m e l :
  0 <= m -> 0 <= shr_m (fst (shr_fexp prec emax m e l)).
Proof.
  intros H. unfold shr_fexp, shr.
  assert (H0 : 0 <= shr_m (shr_record_of_loc m l)).
  { destruct l as [|[]]; simpl; exact H. }
  destruct (fexp prec emax (Zdigits2 m + e) - e); simpl; auto.
  apply iter_pos_shr_1_nonneg, H0.
Qed.

Lemma round_nearest_even_nonneg m l : 0 <= m -> 0 <= round_nearest_even m l.
Proof.
  intros H. destruct l as [|[]]; simpl; try lia.
  destruct (Z.even m); lia.
Qed.

Lemma binary_round_aux_nonneg m e l :
  0 <= m -> nonneg (binary_round_aux prec emax false m e l) = true.
Proof.
  intros H. unfold binary_round_aux.
  pose proof (shr_fexp_nonneg m e l H) as H1.
  destruct (shr_fexp prec emax m e l) as [mrs' e']. simpl in H1.
  pose proof (shr_fexp_nonneg _ e' loc_Exact
                (round_nearest_even_nonneg _ (loc_of_shr_record mrs') H1)) as H2.
  destruct (shr_fexp prec emax _ e' loc_Exact) as [mrs'' e'']. simpl in H2.
  destruct (shr_m mrs'') as [|p|p]; try reflexivity; try lia.
  destruct (e'' <=? emax - prec); reflexivity.
Qed.

Lemma of_int_nonneg n : 0 <= n -> nonneg (of_int n) = true.
Proof.
  intros H. unfold of_int, binary_normalize.
  destruct n as [|p|p]; try reflexivity; try lia.
  unfold binary_round.
  destruct (shl_align p 0 _) as [mz ez].
  apply binary_round_aux_nonneg. lia.
Qed.

Lemma int_mul_f0_3_nonneg n : 0 <= n -> nonneg (int_mul_float n f0_3) = true.
Proof.
  intros H. unfold int_mul_float, mul.
  pose proof (of_int_nonneg n H) as Hn.
  destruct (of_int n) as [s|s| |s m e]; simpl in *; try discriminate.
  - reflexivity.
  - destruct s; [discriminate | reflexivity].
  - destruct s; [discriminate |]. simpl.
    apply binary_round_aux_nonneg. lia.
Qed.

Lemma SFcompare_pos_antisym m1 e1 m2 e2 :
  SFcompare (S754_finite false m2 e2) (S754_finite false m1 e1) =
  option_map CompOpp (SFcompare (S754_finite false m1 e1) (S754_finite false m2 e2)).
Proof.
  simpl. f_equal. rewrite (Z.compare_antisym e1 e2).
  destruct (e1 ?= e2); simpl; try reflexivity.
  symmetry. apply (Pos.compare_cont_antisym m1 m2 Eq).
Qed.

Lemma leb_zero_finite m e : SFleb f0_0 (S754_finite false m e) = true.
Proof. reflexivity. Qed.

Lemma py_min_finite_cases m e :
  let x := S754_finite false m e in
  py_min x f1_0 = f1_0 \/ (py_min x f1_0 = x /\ SFleb x f1_0 = true).
Proof.
  intros x. unfold py_min, ltb, SFltb, SFleb.
  assert (Hrev : SFcompare f1_0 x = option_map CompOpp (SFcompare x f1_0))
    by apply SFcompare_pos_antisym.
  rewrite Hrev.
  destruct (SFcompare x f1_0) as [[]|] eqn:Hc; cbn [option_map CompOpp]; auto.
  discriminate Hc.
Qed.

(** Capping a float that is not negative at [1.0] lands in [0, 1]. *)
Lemma py_min_f1_0_unit x :
  nonneg x = true -> in_unit_interval (py_min x f1_0) = true.
Proof.
  intros H.
  destruct x as [s|s| |s m e]; cbn [nonneg negb] in H; try discriminate.
  - destruct s; reflexivity.
  - destruct s; [discriminate | reflexivity].
  - destruct s; [discriminate |].
    unfold in_unit_interval, leb.
    destruct (py_min_finite_cases m e) as [-> | [-> Hle]].
    + reflexivity.
    + rewrite leb_zero_finite, Hle. reflexivity.
Qed.

(** The confidence of a single match for one to four hits: 0.3, 0.6,
    0.8999999999999999 (three times the double 0.3 rounds below the double
    0.9) and 1.0. *)
Lemma single_match_confidence_values :
  py_min (int_mul_float 1 f0_3) f1_0 = f0_3 /\
  py_min (int_mul_float 2 f0_3) f1_0 = S754_finite false 5404319552844595 (-53) /\
  py_min (int_mul_float 3 f0_3) f1_0 = S754_finite false 8106479329266892 (-53) /\
  py_min (int_mul_float 3 f0_3) f1_0 <> f0_9 /\
  py_min (int_mul_float 4 f0_3) f1_0 = f1_0.
Proof. repeat split; try reflexivity. discriminate. Qed.

End PyFloatFacts.

(** ** Ordered dictionaries, [max] and [sorted] *)

Module PyDictFacts.
Import PyDict.

Section Dict.
Context {K V : Type} `{EqDecision K}.
Implicit Types (d : list (K * V)) (k : K) (v : V).

Lemma setitem_fresh d k v : k ∉ map fst d -> setitem d k v = d ++ [(k, v)].
Proof.
  induction d as [|[k' v'] d IH]; simpl; intros Hk; [reflexivity|].
  apply not_elem_of_cons in Hk as [Hne Hk].
  destruct (decide (k = k')) as [->|_]; [done|].
  by rewrite IH.
Qed.

Lemma get_elem_of d k v : dict_wf d -> (k, v) ∈ d -> get d k = Some v.
Proof.
  unfold dict_wf. induction d as [|[k' v'] d IH]; simpl; intros Hwf Hin.
  - by apply elem_of_nil in Hin.
  - apply NoDup_cons in Hwf as [Hk' Hwf].
    apply elem_of_cons in Hin as [Heq|Hin].
    + injection Heq as -> ->. by rewrite decide_True.
    + destruct (decide (k = k')) as [->|_]; [|by apply IH].
      exfalso. apply Hk'. apply list_elem_of_fmap. by exists (k', v).
Qed.

Lemma fold_setitem_fresh (items acc : list (K * V)) :
  NoDup (map fst (acc ++ items)) ->
  fold_left (fun d kv => setitem d (fst kv) (snd kv)) items acc = acc ++ items.
Proof.
  revert acc. induction items as [|[k v] items IH]; intros acc Hnd; simpl.
  - by rewrite app_nil_r.
  - rewrite setitem_fresh.
    + rewrite IH; rewrite <- app_assoc; [done|exact Hnd].
    + rewrite map_app in Hnd. apply NoDup_app in Hnd as (_ & Hdis & _).
      intros Hin. apply (Hdis k Hin). simpl. apply elem_of_cons. by left.
Qed.

(** Rebuilding a dictionary from its own items changes nothing. *)
Lemma comprehension_wf (items : list (K * V)) :
  dict_wf items -> comprehension items = items.
Proof. intros Hwf. unfold comprehension. by rewrite fold_setitem_fresh. Qed.

End Dict.

Section MaxBy.
Context {K : Type} (key : K -> Z).

Let step (best y : K) : K := if key best <? key y then y else best.

Lemma fold_max_stay (l : list K) (a : K) :
  (forall y, y ∈ l -> key y <= key a) -> fold_left step l a = a.
Proof.
  induction l as [|y l IH]; simpl; intros Hle; [reflexivity|].
  unfold step at 2. rewrite (proj2 (Z.ltb_ge _ _)).
  - apply IH. intros z Hz. apply Hle. by apply elem_of_cons; right.
  - apply Hle. by apply elem_of_cons; left.
Qed.

Lemma fold_max_below (l : list K) (a b : K) :
  key b < key a -> (forall y, y ∈ l -> key y < key a) ->
  key (fold_left step l b) < key a.
Proof.
  revert b. induction l as [|y l IH]; simpl; intros b Hb Hlt; [exact Hb|].
  apply IH.
  - unfold step. destruct (key b <? key y); [|exact Hb].
    apply Hlt. by apply elem_of_cons; left.
  - intros z Hz. apply Hlt. by apply elem_of_cons; right.
Qed.

(** [max] returns the first element that no earlier element reaches and
    no later element exceeds. *)
Lemma max_by_first (l1 l2 : list K) (a : K) :
  (forall y, y ∈ l1 -> key y < key a) ->
  (forall y, y ∈ l2 -> key y <= key a) ->
  max_by key (l1 ++ a :: l2) = Some a.
Proof.
  intros H1 H2. unfold max_by. fold step.
  destruct l1 as [|b l1]; simpl.
  - f_equal. by apply fold_max_stay.
  - f_equal. rewrite fold_left_app. simpl.
    assert (Hb : key (fold_left step l1 b) < key a).
    { apply fold_max_below.
      - apply H1. by apply elem_of_cons; left.
      - intros y Hy. apply H1. by apply elem_of_cons; right. }
    unfold step at 2. rewrite (proj2 (Z.ltb_lt _ _) Hb).
    by apply fold_max_stay.
Qed.

(** Every non-empty list splits at the element [max] returns. *)
Lemma max_by_split (x : K) (r : list K) :
  exists m l1 l2,
    max_by key (x :: r) = Some m /\ x :: r = l1 ++ m :: l2 /\
    (forall y, y ∈ l1 -> key y < key m) /\
    (forall y, y ∈ l2 -> key y <= key m).
Proof.
  induction r as [|z r IH] using rev_ind.
  - exists x, [], []. repeat split; intros y Hy; by apply elem_of_nil in Hy.
  - destruct IH as (m & l1 & l2 & Hm & Hsplit & H1 & H2).
    unfold max_by in Hm |- *. fold step in Hm |- *. injection Hm as Hm.
    rewrite fold_left_app. simpl. rewrite Hm. unfold step at 1.
    destruct (key m <? key z) eqn:Hz.
    + apply Z.ltb_lt in Hz.
      exists z, (x :: r), []. repeat split.
      * intros y Hy. rewrite Hsplit in Hy.
        apply elem_of_app in Hy as [Hy|Hy].
        -- specialize (H1 y Hy). lia.
        -- apply elem_of_cons in Hy as [->|Hy]; [exact Hz|].
           specialize (H2 y Hy). lia.
      * intros y Hy. by apply elem_of_nil in Hy.
    + apply Z.ltb_ge in Hz.
      exists m, l1, (l2 ++ [z]). repeat split.
      * rewrite app_comm_cons, Hsplit. by rewrite <- app_assoc.
      * exact H1.
      * intros y Hy. apply elem_of_app in Hy as [Hy|Hy]; [by apply H2|].
        apply list_elem_of_singleton in Hy as ->. exact Hz.
Qed.

End MaxBy.
End PyDictFacts.

Module RouterFacts.
Import PyDict PyDictFacts Router Notions.

Lemma sorted_desc_perm {K} (l : list (K * Z)) : sorted_desc l ≡ₚ l.
Proof.
  induction l as [|x l IH]; simpl; [done|].
  rewrite <- IH at 2. clear IH.
  induction (sorted_desc l) as [|y r IHr]; simpl; [done|].
  destruct (snd y <=? snd x); [done|].
  rewrite IHr. apply Permutation_swap.
Qed.

Lemma insert_desc_sorted {K} (x : K * Z) (l : list (K * Z)) :
  Sorted (fun a b => snd b <= snd a) l ->
  Sorted (fun a b => snd b <= snd a) (insert_desc x l).
Proof.
  induction 1 as [|y r Hs IH Hhd]; simpl.
  - by repeat constructor.
  - destruct (snd y <=? snd x) eqn:Hyx.
    + apply Z.leb_le in Hyx. constructor; [by constructor|by constructor].
    + apply Z.leb_gt in Hyx. constructor; [exact IH|].
      destruct Hhd as [|z r' Hz]; simpl.
      * constructor. lia.
      * destruct (snd z <=? snd x); constructor; [lia|exact Hz].
Qed.

Lemma sorted_desc_sorted {K} (l : list (K * Z)) :
  Sorted (fun a b => snd b <= snd a) (sorted_desc l).
Proof.
  induction l as [|x l IH]; simpl; [constructor|by apply insert_desc_sorted].
Qed.

Lemma priority_values :
  priority CODE = 10 /\ priority FILE = 9 /\ priority MAIL = 8 /\ priority KEY = 8 /\
  priority WORKFLOW = 7 /\ priority SECURITY = 7 /\ priority SEARCH = 5 /\
  priority CHAT = 1.
Proof. repeat split. Qed.

Lemma priority_pos a : 0 < priority a.
Proof. destruct a; reflexivity. Qed.

Lemma table_index_values :
  map table_index [FILE; MAIL; KEY; WORKFLOW; SECURITY; CODE; SEARCH; CHAT] =
  [0; 1; 2; 3; 4; 5; 6; 7]%nat.
Proof. reflexivity. Qed.

Lemma agent_truthy_all a : agent_truthy a = true.
Proof. by destruct a. Qed.

(** *** The conflict resolver on a well-formed score map *)

Lemma resolve_first_max (l1 l2 : list (AgentType * Z)) (item : AgentType * Z) :
  dict_wf (l1 ++ item :: l2) ->
  (forall c, c ∈ l1 -> weighted c < weighted item) ->
  (forall c, c ∈ l2 -> weighted c <= weighted item) ->
  _resolve_conflicts (l1 ++ item :: l2) = fst item.
Proof.
  intros Hwf H1 H2.
  set (scores := l1 ++ item :: l2) in *.
  set (ws := map (fun it : AgentType * Z =>
                    (fst it, snd it * default 1 (get AGENT_PRIORITIES (fst it)))) scores).
  assert (Hkeys : map fst ws = map fst scores).
  { unfold ws. rewrite map_map. done. }
  assert (Hwsf : dict_wf ws) by (unfold dict_wf; by rewrite Hkeys).
  assert (Hget : forall c, c ∈ scores -> default 0 (get ws (fst c)) = weighted c).
  { intros c Hc. rewrite (get_elem_of ws (fst c) (weighted c) Hwsf); [done|].
    unfold ws. apply list_elem_of_fmap. by exists c. }
  assert (Hres : _resolve_conflicts scores =
                 default CHAT (max_by (fun x => default 0 (get ws x)) (map fst scores))).
  { unfold _resolve_conflicts. destruct scores as [|s0 sr] eqn:Hs.
    - subst scores. by destruct l1.
    - fold ws. rewrite (comprehension_wf ws Hwsf). unfold keys. by rewrite Hkeys. }
  rewrite Hres. unfold scores. rewrite map_app. simpl.
  rewrite max_by_first; [done| |].
  - intros y Hy. apply list_elem_of_fmap in Hy as (c & -> & Hc).
    rewrite !Hget.
    + by apply H1.
    + unfold scores. apply elem_of_app. right. by apply elem_of_cons; left.
    + unfold scores. apply elem_of_app. by left.
  - intros y Hy. apply list_elem_of_fmap in Hy as (c & -> & Hc).
    rewrite !Hget.
    + by apply H2.
    + unfold scores. apply elem_of_app. right. by apply elem_of_cons; left.
    + unfold scores. apply elem_of_app. right. by apply elem_of_cons; right.
Qed.

(** The resolver returns a key of the map whose weighted score no other
    entry exceeds. *)
Lemma resolve_is_max (scores : list (AgentType * Z)) :
  dict_wf scores -> scores <> [] ->
  exists item, item ∈ scores /\ _resolve_conflicts scores = fst item /\
               forall c, c ∈ scores -> weighted c <= weighted item.
Proof.
  intros Hwf Hne. destruct scores as [|x r]; [done|].
  destruct (max_by_split weighted x r) as (m & l1 & l2 & _ & Hsplit & H1 & H2).
  exists m. rewrite Hsplit in Hwf |- *. split; [|split].
  - apply elem_of_app. right. by apply elem_of_cons; left.
  - by apply resolve_first_max.
  - intros c Hc. apply elem_of_app in Hc as [Hc|Hc].
    + specialize (H1 c Hc). lia.
    + apply elem_of_cons in Hc as [->|Hc]; [lia|by apply H2].
Qed.

Lemma omap_strongly_sorted {A B} (R : relation nat) (f : A -> nat) (f' : B -> nat)
      (g : A -> option B) (l : list A) :
  (forall x y, g x = Some y -> f' y = f x) ->
  StronglySorted R (map f l) -> StronglySorted R (map f' (omap g l)).
Proof.
  intros Hg. induction l as [|x l IH]; simpl; intros Hs; [constructor|].
  apply StronglySorted_inv in Hs as [Hs Hall].
  destruct (g x) as [y|] eqn:Hx; simpl; [|by apply IH].
  constructor; [by apply IH|].
  rewrite (Hg x y Hx). apply Forall_forall. intros n Hn.
  apply list_elem_of_fmap in Hn as (y' & -> & Hy').
  apply list_elem_of_omap in Hy' as (x' & Hx' & Hgx').
  rewrite (Hg x' y' Hgx').
  rewrite Forall_forall in Hall. apply Hall. by apply list_elem_of_fmap_2.
Qed.

Section Scorer.
Variable Match : Type.
Variable findall : Pattern -> string -> list Match.
Variable ollama_generate : nat -> string -> outcome string.

Local Abbreviation scorer := (_pattern_match Match findall).
Local Abbreviation router := (route Match findall ollama_generate).
Local Abbreviation classify := (_llm_classify ollama_generate).

(** *** The scoring loop *)

Lemma fold_scores text (table : list (AgentType * list Pattern)) acc :
  NoDup (map fst acc ++ map fst table) ->
  fold_left
    (fun scores entry =>
       let score := pattern_score Match findall (snd entry) text in
       if 0 <? score then setitem scores (fst entry) score else scores)
    table acc
  = acc ++ omap (scored findall text) table.
Proof.
  revert acc. induction table as [|[a ps] table IH]; intros acc Hnd; simpl.
  - by rewrite app_nil_r.
  - unfold scored at 1. simpl.
    apply NoDup_app in Hnd as (Hacc & Hdis & Htab).
    apply NoDup_cons in Htab as [Ha Htab].
    destruct (0 <? pattern_score Match findall ps text).
    + rewrite setitem_fresh.
      * rewrite IH; [by rewrite <- app_assoc|].
        rewrite map_app. simpl. apply NoDup_app. split; [|split; [|done]].
        -- apply NoDup_app. split; [done|]. split; [|apply NoDup_singleton].
           intros k Hk Hk'. apply list_elem_of_singleton in Hk' as ->.
           apply (Hdis a Hk). by apply elem_of_cons; left.
        -- intros k Hk Hk'. apply elem_of_app in Hk as [Hk|Hk].
           ++ apply (Hdis k Hk). by apply elem_of_cons; right.
           ++ apply list_elem_of_singleton in Hk as ->. done.
      * intros Hk. apply (Hdis a Hk). by apply elem_of_cons; left.
    + apply IH. apply NoDup_app. split; [done|]. split; [|done].
      intros k Hk Hk'. apply (Hdis k Hk). by apply elem_of_cons; right.
Qed.

Lemma intent_patterns_keys :
  map fst INTENT_PATTERNS = [FILE; MAIL; KEY; WORKFLOW; SECURITY; CODE; SEARCH; CHAT].
Proof. reflexivity. Qed.

(** The score map lists, in table order, the categories with a hit. *)
Lemma pattern_match_omap text : scorer text = omap (scored findall text) INTENT_PATTERNS.
Proof.
  unfold _pattern_match. rewrite fold_scores; [done|].
  simpl map at 1. rewrite app_nil_l, intent_patterns_keys.
  apply (bool_decide_unpack _). by vm_compute.
Qed.

Lemma scored_fst text e item : scored findall text e = Some item -> fst item = fst e.
Proof. unfold scored. destruct (0 <? _); [|done]. by intros [= <-]. Qed.

Lemma pattern_match_elem text item :
  item ∈ scorer text ->
  exists patterns, (fst item, patterns) ∈ INTENT_PATTERNS /\
                   snd item = pattern_score Match findall patterns text /\
                   0 < snd item.
Proof.
  rewrite pattern_match_omap. intros Hin.
  apply list_elem_of_omap in Hin as ([a ps] & Hin & Hsc).
  unfold scored in Hsc. simpl in Hsc.
  destruct (0 <? pattern_score Match findall ps text) eqn:Hpos; [|done].
  injection Hsc as <-. apply Z.ltb_lt in Hpos. by exists ps.
Qed.

Lemma pattern_match_index_sorted text :
  StronglySorted lt (map (fun item => table_index (fst item)) (scorer text)).
Proof.
  rewrite pattern_match_omap.
  apply (omap_strongly_sorted lt (fun e => table_index (fst e))).
  - intros e item He. by rewrite (scored_fst text e item He).
  - repeat (constructor; [|repeat (constructor; [vm_compute; lia|]); constructor]).
    constructor.
Qed.

Lemma pattern_match_wf text : dict_wf (scorer text).
Proof.
  unfold dict_wf.
  pose proof (pattern_match_index_sorted text) as Hs.
  induction (scorer text) as [|x l IH]; simpl in *; [constructor|].
  apply StronglySorted_inv in Hs as [Hs Hall].
  apply NoDup_cons. split; [|by apply IH].
  intros Hin. apply list_elem_of_fmap in Hin as (y & Hxy & Hy).
  rewrite Forall_forall in Hall.
  assert (table_index (fst x) < table_index (fst y))%nat; [|rewrite Hxy in *; lia].
  apply Hall. apply list_elem_of_fmap. by exists y.
Qed.

(** *** The fallback classifier and the escalation procedure *)

Lemma llm_classify_eq text context w :
  classify text context w =
  match Llm.generate ollama_generate (classify_prompt text) w with
  | (Returned response, w') =>
      (Returned (get agent_map (normalize_reply response)), w')
  | (Raised _, w') => (Returned None, w')
  end.
Proof.
  unfold _llm_classify, _get_llm, bind, try_except, ret.
  by destruct (Llm.generate ollama_generate (classify_prompt text) w) as [[response|e] w'].
Qed.

Lemma llm_classify_returns text context w :
  exists r w', classify text context w = (Returned r, w').
Proof.
  rewrite llm_classify_eq.
  destruct (Llm.generate ollama_generate (classify_prompt text) w) as [[response|e] w'];
    eauto.
Qed.

Lemma route_unforced text context w :
  router text context None w = route_by_patterns Match findall ollama_generate text context w.
Proof. reflexivity. Qed.

Lemma route_empty text context w r w' :
  scorer text = [] ->
  classify text context w = (Returned r, w') ->
  router text context None w =
  (Returned
     match r with
     | Some agent =>
         (agent, {| method := "llm"; scores := Some []; confidence := Some PyFloat.f0_8 |})
     | None =>
         (CHAT, {| method := "default"; scores := Some []; confidence := Some PyFloat.f0_5 |})
     end, w').
Proof.
  intros Hs Hc. rewrite route_unforced. unfold route_by_patterns.
  cbv zeta. rewrite Hs. unfold bind. rewrite Hc.
  destruct r as [agent|]; [|reflexivity].
  by rewrite agent_truthy_all.
Qed.

Lemma route_single text context w agent h :
  scorer text = [(agent, h)] ->
  router text context None w =
  (Returned
     (agent,
      {| method := "pattern"; scores := Some [(agent, h)];
         confidence :=
           Some (PyFloat.py_min (PyFloat.int_mul_float h PyFloat.f0_3) PyFloat.f1_0) |}),
   w).
Proof.
  intros Hs. rewrite route_unforced. unfold route_by_patterns.
  cbv zeta. by rewrite Hs.
Qed.

Lemma route_multi text context w :
  (2 <= length (scorer text))%nat ->
  exists top second rest,
    sorted_desc (scorer text) = top :: second :: rest /\
    router text context None w =
    (Returned
       (if snd second * 2 <? snd top then
          (fst top,
           {| method := "pattern"; scores := Some (scorer text);
              confidence := Some PyFloat.f0_9 |})
        else
          (_resolve_conflicts (scorer text),
           {| method := "priority_weighted"; scores := Some (scorer text);
              confidence := Some PyFloat.f0_7 |})),
     w).
Proof.
  intros Hlen. rewrite route_unforced. unfold route_by_patterns. cbv zeta.
  pose proof (Permutation_length (sorted_desc_perm (scorer text))) as Hperm.
  destruct (scorer text) as [|a [|b r]] eqn:Hs; simpl in Hlen; try lia.
  destruct (sorted_desc (a :: b :: r)) as [|top [|second rest]] eqn:Hsorted;
    simpl in Hperm; try lia.
  exists top, second, rest. split; [done|].
  destruct a. by destruct (snd second * 2 <? snd top).
Qed.

End Scorer.


End RouterFacts.

(** ** The router: escalation, resolver and fallback classifier *)

Module RouterSpec.
Import PyDict PyDictFacts Router Notions RouterFacts.

Section Claims.
Variable Match : Type.
Variable findall : Pattern -> string -> list Match.
Variable ollama_generate : nat -> string -> outcome string.

Local Abbreviation scorer := (_pattern_match Match findall).
Local Abbreviation router := (route Match findall ollama_generate).
Local Abbreviation classify := (_llm_classify ollama_generate).

(** C1.  When the score map of a text holds two or more categories,
    [route] sorts its entries by raw hit count, highest first, and
    compares the two leading counts: if the first is more than twice the
    second it returns the leading category with method [pattern] and
    confidence 0.9, otherwise the choice of the conflict resolver with
    method [priority_weighted] and confidence 0.7. *)
Theorem route_multiple_categories text context w :
  (2 <= length (scorer text))%nat ->
  exists top second rest,
    sorted_desc (scorer text) = top :: second :: rest /\
    sorted_desc (scorer text) ≡ₚ scorer text /\
    Sorted (fun a b => snd b <= snd a) (sorted_desc (scorer text)) /\
    router text context None w =
    (Returned
       (if snd second * 2 <? snd top then
          (fst top, Build_Metadata "pattern" (Some (scorer text)) (Some PyFloat.f0_9))
        else
          (_resolve_conflicts (scorer text),
           Build_Metadata "priority_weighted" (Some (scorer text)) (Some PyFloat.f0_7))),
     w).
Proof.
  intros Hlen.
  destruct (route_multi Match findall ollama_generate text context w Hlen)
    as (top & second & rest & Hsorted & Hroute).
  exists top, second, rest. split; [exact Hsorted|]. split; [|split].
  - apply sorted_desc_perm.
  - apply sorted_desc_sorted.
  - exact Hroute.
Qed.

(** C2.  When the score map of a text holds exactly one category, with
    [h] hits summed over the patterns of that category, [route] returns
    it with method [pattern] and confidence [min(h * 0.3, 1.0)]. *)
Theorem route_single_category text context w :
  length (scorer text) = 1%nat ->
  exists agent patterns h,
    (agent, patterns) ∈ INTENT_PATTERNS /\
    h = pattern_score Match findall patterns text /\
    scorer text = [(agent, h)] /\
    router text context None w =
    (Returned
       (agent,
        Build_Metadata "pattern" (Some [(agent, h)])
          (Some (PyFloat.py_min (PyFloat.int_mul_float h PyFloat.f0_3) PyFloat.f1_0))),
     w).
Proof.
  intros Hlen.
  destruct (scorer text) as [|[agent h] [|? ?]] eqn:Hs; try discriminate Hlen.
  destruct (pattern_match_elem Match findall text (agent, h))
    as (patterns & Hin & Hh & _).
  { rewrite Hs. by apply elem_of_cons; left. }
  exists agent, patterns, h. repeat split; try done.
  by apply route_single.
Qed.

(** C3.  When the score map of a text is empty, [route] asks the fallback
    classifier, which always answers: on a category it returns that
    category with method [llm] and confidence 0.8, on no category it
    returns [chat] with method [default] and confidence 0.5. *)
Theorem route_no_pattern text context w :
  scorer text = [] ->
  exists r w',
    classify text context w = (Returned r, w') /\
    router text context None w =
    (Returned
       match r with
       | Some agent => (agent, Build_Metadata "llm" (Some []) (Some PyFloat.f0_8))
       | None => (CHAT, Build_Metadata "default" (Some []) (Some PyFloat.f0_5))
       end, w').
Proof.
  intros Hs.
  destruct (llm_classify_returns ollama_generate text context w) as (r & w' & Hc).
  exists r, w'. split; [exact Hc|]. by apply route_empty.
Qed.

(** C8.  Whatever the generation backend does, the fallback classifier
    returns and never raises: a reply is normalised and looked up in the
    table of agent names, giving a category or [None]; a failure of the
    call gives [None]. *)
Theorem llm_classify_never_raises text context w :
  exists r w',
    classify text context w = (Returned r, w') /\
    match Llm.generate ollama_generate (classify_prompt text) w with
    | (Returned response, w'') =>
        r = get agent_map (normalize_reply response) /\ w' = w''
    | (Raised _, w'') => r = None /\ w' = w''
    end.
Proof.
  rewrite llm_classify_eq.
  destruct (Llm.generate ollama_generate (classify_prompt text) w) as [[response|e] w'];
    eauto.
Qed.

(** C9.  Every call of [route] returns a decision whose metadata carries
    a confidence, and that confidence lies in the closed interval
    from 0 to 1. *)
Theorem route_confidence_in_unit_interval text context force_agent w :
  exists agent meta w' c,
    router text context force_agent w = (Returned (agent, meta), w') /\
    confidence meta = Some c /\
    PyFloat.in_unit_interval c = true.
Proof.
  destruct force_agent as [forced|].
  { unfold route. rewrite agent_truthy_all. unfold ret.
    by eexists _, _, _, _. }
  destruct (scorer text) as [|[agent h] [|second rest]] eqn:Hs.
  - destruct (llm_classify_returns ollama_generate text context w) as (r & w' & Hc).
    rewrite (route_empty Match findall ollama_generate text context w r w' Hs Hc).
    destruct r; by eexists _, _, _, _.
  - rewrite (route_single Match findall ollama_generate text context w agent h Hs).
    eexists _, _, _, _. split; [reflexivity|]. split; [reflexivity|].
    apply PyFloatFacts.py_min_f1_0_unit, PyFloatFacts.int_mul_f0_3_nonneg.
    destruct (pattern_match_elem Match findall text (agent, h)) as (_ & _ & _ & Hpos).
    { rewrite Hs. by apply elem_of_cons; left. }
    simpl in Hpos. lia.
  - destruct (route_multi Match findall ollama_generate text context w)
      as (top & snd' & rest' & _ & Hroute).
    { rewrite Hs. simpl. lia. }
    rewrite Hroute.
    destruct (snd snd' * 2 <? snd top); by eexists _, _, _, _.
Qed.

(** C10.  On the score map of a text, when several categories share the
    highest weighted score the resolver returns the one that comes
    first in the order of the pattern table: a category of the map whose
    weighted score is maximal and that precedes every category tied with
    it is the one returned. *)
Theorem resolve_tie_follows_table_order text item :
  item ∈ scorer text ->
  (forall c, c ∈ scorer text -> weighted c <= weighted item) ->
  (forall c, c ∈ scorer text -> weighted c = weighted item ->
             (table_index (fst item) <= table_index (fst c))%nat) ->
  _resolve_conflicts (scorer text) = fst item.
Proof.
  intros Hin Hmax Hfirst.
  pose proof (pattern_match_wf Match findall text) as Hwf.
  pose proof (pattern_match_index_sorted Match findall text) as Hsorted.
  destruct (list_elem_of_split _ _ Hin) as (l1 & l2 & Hsplit).
  rewrite Hsplit in *.
  apply resolve_first_max; [exact Hwf| |].
  - intros c Hc.
    assert (Hc' : c ∈ l1 ++ item :: l2) by (apply elem_of_app; by left).
    destruct (Z.eq_dec (weighted c) (weighted item)) as [Heq|Hne].
    + specialize (Hfirst c Hc' Heq).
      rewrite map_app in Hsorted. simpl in Hsorted.
      assert (table_index (fst c) < table_index (fst item))%nat; [|lia].
      apply (StronglySorted_app_1_elem_of _ _ _ _ _ Hsorted).
      * by apply (list_elem_of_fmap_2 (fun i : AgentType * Z => table_index (fst i))).
      * by apply elem_of_cons; left.
    + specialize (Hmax c Hc'). lia.
  - intros c Hc. apply Hmax. apply elem_of_app. right. by apply elem_of_cons; right.
Qed.

End Claims.

(** C4.  Of two categories with the same positive raw hit count and
    different priority weights the resolver returns the one with the
    higher weight when they make up the score map, in either order, and
    never the one with the lower weight when other categories are present
    too; the weights rank code above file, file above mail and key, these
    above workflow and security, these above search, and search above
    chat. *)
Theorem resolve_equal_hits_by_priority (a b : AgentType) (h : Z) :
  0 < h -> priority b < priority a ->
  (_resolve_conflicts [(a, h); (b, h)] = a /\
   _resolve_conflicts [(b, h); (a, h)] = a) /\
  (forall scores, dict_wf scores -> (a, h) ∈ scores -> (b, h) ∈ scores ->
                  _resolve_conflicts scores <> b) /\
  (priority FILE < priority CODE /\ priority MAIL < priority FILE /\
   priority MAIL = priority KEY /\ priority WORKFLOW < priority MAIL /\
   priority WORKFLOW = priority SECURITY /\ priority SEARCH < priority WORKFLOW /\
   priority CHAT < priority SEARCH).
Proof.
  intros Hh Hprio.
  assert (Hne : a <> b) by (intros ->; lia).
  assert (Hw : weighted (b, h) < weighted (a, h)) by (unfold weighted; simpl; nia).
  split; [split|split].
  - apply (resolve_first_max [] [(b, h)] (a, h)).
    + unfold dict_wf. simpl. apply NoDup_cons. split; [|apply NoDup_singleton].
      by intros ->%list_elem_of_singleton.
    + intros c Hc. by apply elem_of_nil in Hc.
    + intros c ->%list_elem_of_singleton. lia.
  - apply (resolve_first_max [(b, h)] [] (a, h)).
    + unfold dict_wf. simpl. apply NoDup_cons. split; [|apply NoDup_singleton].
      intros Hin%list_elem_of_singleton. by apply Hne.
    + intros c ->%list_elem_of_singleton. exact Hw.
    + intros c Hc. by apply elem_of_nil in Hc.
  - intros scores Hwf Ha Hb Hres.
    destruct (resolve_is_max scores Hwf) as (item & Hitem & Hfst & Hmax).
    { intros ->. by apply elem_of_nil in Ha. }
    assert (item = (b, h)) as ->.
    { destruct item as [k v]. simpl in Hfst. rewrite Hres in Hfst. subst k.
      f_equal.
      pose proof (get_elem_of scores b v Hwf Hitem) as H1.
      pose proof (get_elem_of scores b h Hwf Hb) as H2. congruence. }
    specialize (Hmax _ Ha). lia.
  - repeat split.
Qed.

Lemma route_multiple_categories_witness :
  (2 <= length (_pattern_match unit engine_save_message "save the message"))%nat /\
  exists top second rest,
    sorted_desc (_pattern_match unit engine_save_message "save the message")
    = top :: second :: rest /\
    sorted_desc (_pattern_match unit engine_save_message "save the message")
    ≡ₚ _pattern_match unit engine_save_message "save the message" /\
    Sorted (fun a b => snd b <= snd a)
           (sorted_desc (_pattern_match unit engine_save_message "save the message")) /\
    route unit engine_save_message (constant_reply "chat") "save the message" None None
          initial_world =
    (Returned
       (if snd second * 2 <? snd top then
          (fst top,
           Build_Metadata "pattern"
             (Some (_pattern_match unit engine_save_message "save the message"))
             (Some PyFloat.f0_9))
        else
          (_resolve_conflicts (_pattern_match unit engine_save_message "save the message"),
           Build_Metadata "priority_weighted"
             (Some (_pattern_match unit engine_save_message "save the message"))
             (Some PyFloat.f0_7))),
     initial_world).
Proof.
  split; [vm_compute; lia|].
  apply (route_multiple_categories unit engine_save_message (constant_reply "chat")
           "save the message" None initial_world).
  vm_compute; lia.
Defined.

Lemma route_single_category_witness :
  length (_pattern_match unit engine_hello "hello there") = 1%nat /\
  exists agent patterns h,
    (agent, patterns) ∈ INTENT_PATTERNS /\
    h = pattern_score unit engine_hello patterns "hello there" /\
    _pattern_match unit engine_hello "hello there" = [(agent, h)] /\
    route unit engine_hello (constant_reply "chat") "hello there" None None initial_world =
    (Returned
       (agent,
        Build_Metadata "pattern" (Some [(agent, h)])
          (Some (PyFloat.py_min (PyFloat.int_mul_float h PyFloat.f0_3) PyFloat.f1_0))),
     initial_world).
Proof.
  split; [vm_compute; reflexivity|].
  apply (route_single_category unit engine_hello (constant_reply "chat")
           "hello there" None initial_world).
  vm_compute; reflexivity.
Defined.

Lemma route_no_pattern_witness :
  _pattern_match unit engine_no_match "xyz123" = [] /\
  exists r w',
    _llm_classify (constant_reply " Mail: ") "xyz123" None initial_world
    = (Returned r, w') /\
    route unit engine_no_match (constant_reply " Mail: ") "xyz123" None None initial_world =
    (Returned
       match r with
       | Some agent => (agent, Build_Metadata "llm" (Some []) (Some PyFloat.f0_8))
       | None => (CHAT, Build_Metadata "default" (Some []) (Some PyFloat.f0_5))
       end, w').
Proof.
  split; [vm_compute; reflexivity|].
  apply (route_no_pattern unit engine_no_match (constant_reply " Mail: ")
           "xyz123" None initial_world).
  vm_compute; reflexivity.
Defined.

Lemma resolve_tie_follows_table_order_witness :
  _resolve_conflicts (_pattern_match unit engine_mail_token "mail the token") = MAIL.
Proof.
  assert (Hs : _pattern_match unit engine_mail_token "mail the token"
               = [(MAIL, 1); (KEY, 1)]) by (vm_compute; reflexivity).
  apply (resolve_tie_follows_table_order unit engine_mail_token
           "mail the token" (MAIL, 1)); rewrite Hs.
  - apply elem_of_cons. by left.
  - intros c Hc. apply elem_of_cons in Hc as [->|Hc]; [vm_compute; discriminate|].
    apply list_elem_of_singleton in Hc as ->. vm_compute; discriminate.
  - intros c Hc _. apply elem_of_cons in Hc as [->|Hc]; [vm_compute; lia|].
    apply list_elem_of_singleton in Hc as ->. vm_compute; lia.
Defined.

Lemma resolve_equal_hits_by_priority_witness :
  (_resolve_conflicts [(CODE, 2); (SEARCH, 2)] = CODE /\
   _resolve_conflicts [(SEARCH, 2); (CODE, 2)] = CODE) /\
  (forall scores, dict_wf scores -> (CODE, 2) ∈ scores -> (SEARCH, 2) ∈ scores ->
                  _resolve_conflicts scores <> SEARCH) /\
  (priority FILE < priority CODE /\ priority MAIL < priority FILE /\
   priority MAIL = priority KEY /\ priority WORKFLOW < priority MAIL /\
   priority WORKFLOW = priority SECURITY /\ priority SEARCH < priority WORKFLOW /\
   priority CHAT < priority SEARCH).
Proof.
  apply (resolve_equal_hits_by_priority CODE SEARCH 2); [lia|vm_compute; reflexivity].
Defined.

(** With the backend down the classifier tries three times and the router
    falls back to chat. *)
Example route_backend_unreachable :
  let '(decision, w) :=
    route unit engine_no_match unreachable "xyz123" None None initial_world in
  decision = Returned (CHAT, Build_Metadata "default" (Some []) (Some PyFloat.f0_5)) /\
  length (requests w) = 3%nat.
Proof. vm_compute. by split. Qed.

End RouterSpec.


(** ** The RAG pipeline: indexing, citations and deletion *)

Module RagFacts.
Import Rag RagNotions.

Lemma length_app_string (s1 s2 : string) :
  String.length (s1 +:+ s2) = (String.length s1 + String.length s2)%nat.
Proof. induction s1 as [|c s1 IH]; simpl; [done|]. by rewrite IH. Qed.

Lemma length_slice_to (n : nat) (s : string) :
  String.length (PyStr.slice_to n s) = (n `min` String.length s)%nat.
Proof.
  revert s. induction n as [|n IH]; intros [|c s]; simpl; try done.
  by rewrite IH.
Qed.

Lemma preview_short text :
  (String.length text <= 200)%nat -> preview text = text.
Proof.
  intros H. unfold preview.
  destruct (200 <? String.length text)%nat eqn:Hlt; [|done].
  apply Nat.ltb_lt in Hlt. lia.
Qed.

Lemma preview_long text :
  (200 < String.length text)%nat ->
  preview text = PyStr.slice_to 200 text +:+ "..." /\
  String.length (preview text) = 203%nat.
Proof.
  intros H. unfold preview.
  rewrite (proj2 (Nat.ltb_lt _ _) H). split; [done|].
  rewrite length_app_string, length_slice_to.
  change (String.length "...") with 3%nat. lia.
Qed.

Lemma citations_loop (documents : list Document) (acc : list Citation) :
  fold_left (fun citations doc => citations ++ [citation doc]) documents acc
  = acc ++ map citation documents.
Proof.
  revert acc. induction documents as [|d documents IH]; intros acc; simpl.
  - by rewrite app_nil_r.
  - rewrite IH. by rewrite <- app_assoc.
Qed.

Lemma filter_all {A} (f : A -> bool) (l : list A) :
  (forall x, x ∈ l -> f x = true) -> List.filter f l = l.
Proof.
  induction l as [|x l IH]; intros H; simpl; [done|].
  rewrite (H x) by (by apply elem_of_cons; left).
  f_equal. apply IH. intros y Hy. apply H. by apply elem_of_cons; right.
Qed.

Lemma filter_none {A} (f : A -> bool) (l : list A) :
  (forall x, x ∈ l -> f x = false) -> List.filter f l = [].
Proof.
  induction l as [|x l IH]; intros H; simpl; [done|].
  rewrite (H x) by (by apply elem_of_cons; left).
  apply IH. intros y Hy. apply H. by apply elem_of_cons; right.
Qed.

(** Reading a field of an updated world. *)
Ltac world_fields :=
  cbn [requests collection uuids dimension client_ready store_calls store_faults
       with_requests with_collection with_uuids with_dimension with_client_ready
       with_store_calls fst snd].

(** Unfolding the calls to the store down to the world they act on. *)
Ltac store_steps :=
  unfold _get_qdrant, _ensure_collection, qdrant_has_collection,
    qdrant_create_collection, qdrant_scroll, qdrant_delete, qdrant_upsert,
    qdrant_search, set_collection, store_call, modify, bind, ret, raise, get;
  cbn [requests collection uuids dimension client_ready store_calls store_faults
       with_requests with_collection with_uuids with_dimension with_client_ready
       with_store_calls negb].

(** [_get_qdrant] touches neither the requests, nor the points, nor the
    identifiers; it calls the store only when the pipeline has no client
    yet. *)
Lemma get_qdrant_frame settings w :
  exists r w1,
    _get_qdrant settings w = (r, w1) /\
    requests w1 = requests w /\ collection w1 = collection w /\
    uuids w1 = uuids w /\ store_faults w1 = store_faults w /\
    (client_ready w = true -> r = Returned tt /\ w1 = w).
Proof.
  store_steps.
  destruct (client_ready w) eqn:Hready; [by eexists _, _|].
  destruct (store_faults w (store_calls w)) as [e|];
    [eexists _, _; by repeat split|].
  destruct (dimension w) as [d|] eqn:Hdim; cbn [bool_decide decide_rel];
    [rewrite bool_decide_eq_true_2 by (by eexists); eexists _, _; by repeat split|].
  rewrite bool_decide_eq_false_2 by (by intros [? ?]).
  store_steps.
  destruct (store_faults w (S (store_calls w))) as [e|]; rewrite ?Hdim;
    eexists _, _; by repeat split.
Qed.

(** With a store that answers, [_get_qdrant] returns, and a collection
    that was missing has been created with the configured vector size. *)
Lemma get_qdrant_served settings w :
  store_answers w -> store_ready settings w ->
  exists w1,
    _get_qdrant settings w = (Returned tt, w1) /\
    requests w1 = requests w /\ collection w1 = collection w /\
    uuids w1 = uuids w /\ store_faults w1 = store_faults w /\
    dimension w1 = Some (qdrant_embedding_size settings).
Proof.
  intros Hans Hready. store_steps.
  destruct Hready as [Hdim|[Hdim Hclient]].
  - destruct (client_ready w); [by eexists|].
    rewrite Hans, Hdim. rewrite bool_decide_eq_true_2 by (by eexists).
    eexists; by repeat split.
  - rewrite Hclient, Hans, Hdim. rewrite bool_decide_eq_false_2 by (by intros [? ?]).
    store_steps. rewrite Hans, Hdim. eexists; by repeat split.
Qed.

(** [delete_document] reads a single page of at most 1000 matching points
    and deletes exactly the points of that page; when the store fails a
    call, the exception leaves the function and no point is removed by
    that call. *)
Lemma delete_document_cases settings doc_id w :
  let point_ids := map point_id (take 1000 (points_of doc_id w)) in
  let remaining :=
    List.filter (fun p => negb (bool_decide (point_id p ∈ point_ids))) (collection w) in
  exists r w',
    delete_document settings doc_id w = (r, w') /\
    requests w' = requests w /\ uuids w' = uuids w /\
    store_faults w' = store_faults w /\
    (collection w' = collection w \/ collection w' = remaining) /\
    (forall n, r = Returned n ->
               n = Z.of_nat (length point_ids) /\ collection w' = remaining).
Proof.
  intros point_ids remaining.
  assert (Hnone : point_ids = [] -> remaining = collection w).
  { intros Hnil. unfold remaining. rewrite Hnil. apply filter_all.
    intros p _. apply negb_true_iff, bool_decide_eq_false. apply not_elem_of_nil. }
  unfold delete_document. unfold bind at 1.
  destruct (get_qdrant_frame settings w) as (r & w1 & Hget & Hreq & Hcol & Huu & Hfl & _).
  rewrite Hget. destruct r as [[]|e]; [|eexists _, _; by repeat split; auto].
  unfold bind at 1. store_steps.
  destruct (store_faults w1 (store_calls w1)) as [e|];
    [eexists _, _; by repeat split; auto|].
  destruct (dimension w1) as [d|] eqn:Hdim; [|eexists _, _; by repeat split; auto].
  rewrite Hcol. fold (points_of doc_id w). fold point_ids. fold remaining.
  clearbody point_ids. destruct point_ids as [|id0 ids].
  { eexists _, _. split; [reflexivity|]. cbn.
    do 3 (split; [done|]). split; [by left|].
    intros n [= <-]. split; [done|]. by rewrite Hnone. }
  store_steps.
  destruct (store_faults w1 (S (store_calls w1))) as [e|];
    [eexists _, _; by repeat split; auto|].
  rewrite Hdim. store_steps. rewrite Hcol.
  eexists _, _. split; [reflexivity|]. cbn.
  do 3 (split; [done|]). split; [by right|].
  by intros n [= <-].
Qed.

(** With a store that answers and is ready, [delete_document] returns. *)
Lemma delete_document_eq settings doc_id w :
  store_answers w -> store_ready settings w ->
  let point_ids := map point_id (take 1000 (points_of doc_id w)) in
  exists w',
    delete_document settings doc_id w = (Returned (Z.of_nat (length point_ids)), w') /\
    collection w' =
      List.filter (fun p => negb (bool_decide (point_id p ∈ point_ids))) (collection w) /\
    requests w' = requests w /\ uuids w' = uuids w /\
    store_answers w' /\ store_ready settings w'.
Proof.
  intros Hans Hready point_ids.
  unfold delete_document. unfold bind at 1.
  destruct (get_qdrant_served settings w Hans Hready)
    as (w1 & Hget & Hreq & Hcol & Huu & Hfl & Hdim).
  rewrite Hget. unfold bind at 1. store_steps.
  rewrite Hfl, Hans, Hdim, Hcol. fold (points_of doc_id w). fold point_ids.
  assert (Hans1 : store_answers w1) by (intros n; by rewrite Hfl).
  clearbody point_ids. destruct point_ids as [|id0 ids].
  { eexists. split; [reflexivity|]. cbn.
    split; [|do 2 (split; [done|]); split; [exact Hans1|by left]].
    rewrite Hcol. symmetry. apply filter_all.
    intros p _. apply negb_true_iff, bool_decide_eq_false. apply not_elem_of_nil. }
  store_steps. rewrite Hfl, Hans, Hdim. store_steps. rewrite Hcol.
  eexists. split; [reflexivity|]. cbn.
  do 3 (split; [done|]). split; [exact Hans1|by left].
Qed.

Lemma delete_document_at_most_one_page settings doc_id w :
  exists r w',
    delete_document settings doc_id w = (r, w') /\
    forall n, r = Returned n -> 0 <= n <= 1000.
Proof.
  destruct (delete_document_cases settings doc_id w) as (r & w' & Heq & _ & _ & _ & _ & Hret).
  exists r, w'. split; [exact Heq|].
  intros n Hn. destruct (Hret n Hn) as [-> _].
  rewrite length_map, length_take. lia.
Qed.

End RagFacts.

Module RagSpec.
Import Rag Notions RagNotions RagFacts.

Section Claims.
Variable settings : Settings.
Variable split_text : string -> list string.
Variable qdrant_rank :
  list Point -> list spec_float -> option (list (string * pyval)) -> Z -> spec_float ->
  list ScoredPoint.
Variable ollama_generate : nat -> string -> outcome string.
Variable ollama_embeddings : nat -> string -> outcome (list spec_float).

Local Abbreviation rag_search := (search settings qdrant_rank ollama_embeddings).
Local Abbreviation rag_query := (query settings qdrant_rank ollama_generate ollama_embeddings).
Local Abbreviation rag_index := (index_document settings split_text ollama_embeddings).

(** C7, as the code has it.  When the splitter yields no chunk for the
    content of a document, [index_document] sends nothing to the embedding
    backend and stores no point; what it returns is decided by
    [_get_qdrant], which runs before the content is split: 0 when the
    client is obtained (always once the pipeline holds its client, and on
    first use whenever the store answers), and the store's exception
    otherwise. *)
Theorem index_document_no_chunks doc_id content metadata w :
  split_text content = [] ->
  index_document settings split_text ollama_embeddings doc_id content metadata w =
    match _get_qdrant settings w with
    | (Returned _, w1) => (Returned 0, w1)
    | (Raised e, w1) => (Raised e, w1)
    end /\
  requests (snd (index_document settings split_text ollama_embeddings
                                doc_id content metadata w)) = requests w /\
  collection (snd (index_document settings split_text ollama_embeddings
                                  doc_id content metadata w)) = collection w /\
  (client_ready w = true ->
   index_document settings split_text ollama_embeddings doc_id content metadata w
   = (Returned 0, w)) /\
  (store_answers w ->
   exists w1,
     index_document settings split_text ollama_embeddings doc_id content metadata w
     = (Returned 0, w1)).
Proof.
  intros Hsplit.
  assert (Heq : rag_index doc_id content metadata w =
                match _get_qdrant settings w with
                | (Returned _, w1) => (Returned 0, w1)
                | (Raised e, w1) => (Raised e, w1)
                end).
  { unfold index_document, _get_llm. unfold bind at 1. unfold ret at 1.
    unfold bind at 1. rewrite Hsplit.
    by destruct (_get_qdrant settings w) as [[[]|e] w1]. }
  split; [exact Heq|]. rewrite Heq.
  destruct (get_qdrant_frame settings w) as (r & w1 & Hget & Hreq & Hcol & _ & _ & Hkept).
  rewrite Hget.
  split; [by destruct r|]. split; [by destruct r|]. split.
  - intros Hready. by destruct (Hkept Hready) as [-> ->].
  - intros Hans. revert Hget. store_steps.
    destruct (client_ready w); [intros [= <- <-]; by eexists|].
    rewrite Hans. destruct (dimension w) as [d|] eqn:Hdim.
    + rewrite bool_decide_eq_true_2 by (by eexists). intros [= <- <-]. by eexists.
    + rewrite bool_decide_eq_false_2 by (by intros [? ?]). store_steps.
      rewrite Hans, Hdim. intros [= <- <-]. by eexists.
Qed.

(** C6, as the code has it.  A query that asks for citations returns, when
    retrieval and generation succeed, one citation per retrieved document
    in retrieval order.  The text preview of a citation is the document
    text when that has at most 200 characters, and otherwise its first 200
    characters followed by three dots: 203 characters. *)
Theorem query_citations q system_instructions top_k w :
  rag_query q system_instructions top_k true w =
  match rag_search q top_k None None None w with
  | (Raised e, w1) => (Raised e, w1)
  | (Returned documents, w1) =>
      match Llm.generate ollama_generate
              (build_rag_prompt q (format_context documents) system_instructions) w1 with
      | (Raised e, w2) => (Raised e, w2)
      | (Returned response, w2) => (Returned (response, map citation documents), w2)
      end
  end /\
  (forall documents : list Document,
      length (map citation documents) = length documents /\
      map cit_id (map citation documents) = map doc_ident documents) /\
  (forall doc : Document,
      cit_content (citation doc) =
        (if (200 <? String.length (doc_content doc))%nat
         then PyStr.slice_to 200 (doc_content doc) +:+ "..."
         else doc_content doc) /\
      (String.length (cit_content (citation doc)) <= 203)%nat /\
      ((200 < String.length (doc_content doc))%nat ->
       String.length (cit_content (citation doc)) = 203%nat)).
Proof.
  split; [|split].
  - unfold query, _get_llm, bind, ret.
    destruct (rag_search q top_k None None None w) as [[documents|e] w1]; [|done].
    destruct (Llm.generate ollama_generate _ w1) as [[response|e] w2]; [|done].
    by rewrite citations_loop.
  - intros documents. split; [by rewrite length_map|].
    by rewrite map_map.
  - intros doc. simpl. split; [done|].
    destruct (Nat.lt_ge_cases 200 (String.length (doc_content doc))) as [Hlong|Hshort].
    + destruct (preview_long _ Hlong) as [_ Hlen]. split; [lia|done].
    + rewrite (preview_short _ Hshort). split; lia.
Qed.

End Claims.

Lemma index_document_no_chunks_witness :
  char_splitter "" = [] /\
  index_document default_settings char_splitter (constant_embeddings default_settings)
                 "doc" "" None initial_world =
    match _get_qdrant default_settings initial_world with
    | (Returned _, w1) => (Returned 0, w1)
    | (Raised e, w1) => (Raised e, w1)
    end /\
  requests (snd (index_document default_settings char_splitter
                                (constant_embeddings default_settings)
                                "doc" "" None initial_world)) = requests initial_world /\
  collection (snd (index_document default_settings char_splitter
                                  (constant_embeddings default_settings)
                                  "doc" "" None initial_world)) = collection initial_world /\
  (client_ready initial_world = true ->
   index_document default_settings char_splitter (constant_embeddings default_settings)
                  "doc" "" None initial_world
   = (Returned 0, initial_world)) /\
  (store_answers initial_world ->
   exists w1,
     index_document default_settings char_splitter (constant_embeddings default_settings)
                    "doc" "" None initial_world
     = (Returned 0, w1)).
Proof.
  split; [reflexivity|].
  apply (index_document_no_chunks default_settings char_splitter
           (constant_embeddings default_settings) "doc" "" None initial_world).
  reflexivity.
Defined.

(** C7, as stated, fails on the code: with the vector store unreachable,
    indexing a document of empty content raises the store's exception
    instead of returning 0; the embedding backend is not invoked. *)
Lemma index_document_store_unreachable :
  char_splitter "" = [] /\
  exists w',
    index_document default_settings char_splitter (constant_embeddings default_settings)
                   "doc" "" None store_down
    = (Raised (PyException "ConnectError"), w') /\
    requests w' = [] /\ collection w' = [].
Proof.
  split; [reflexivity|]. eexists. split; [vm_compute; reflexivity|]. by split.
Qed.

(** C6, as stated, fails on the code: a retrieved document of 201
    characters is cited with a preview of 203 characters, and a query made
    with [include_citations=False] retrieves a document and cites none. *)
Lemma query_preview_longer_than_200 :
  (exists c w',
      query default_settings rank_all (constant_reply "answer")
            (constant_embeddings default_settings)
            "What is the refund policy?" None None true (world_with_document 201)
      = (Returned ("answer"%string, [c]), w') /\
      String.length (cit_content c) = 203%nat /\
      ~ (String.length (cit_content c) <= 200)%nat) /\
  (exists documents w1 w',
      search default_settings rank_all (constant_embeddings default_settings)
             "What is the refund policy?" None None None None (world_with_document 201)
      = (Returned documents, w1) /\
      length documents = 1%nat /\
      query default_settings rank_all (constant_reply "answer")
            (constant_embeddings default_settings)
            "What is the refund policy?" None None false (world_with_document 201)
      = (Returned ("answer"%string, []), w')).
Proof.
  split.
  - eexists _, _. split; [vm_compute; reflexivity|]. split; [reflexivity|].
    vm_compute. lia.
  - eexists _, _, _. split; [vm_compute; reflexivity|]. split; [reflexivity|].
    vm_compute; reflexivity.
Qed.

(** C5.  A document of 1001 chunks is indexed as 1001 points; the first
    [delete_document] reads one page of 1000 points, deletes those and
    returns 1000, leaving a point behind; the second call deletes that
    point and returns 1, not 0. *)
Theorem delete_document_stops_at_one_page :
  let '(indexed, w1) :=
    index_document default_settings char_splitter (constant_embeddings default_settings)
                   "doc" (text_of_length 1001) None initial_world in
  let '(first, w2) := delete_document default_settings "doc" w1 in
  let '(second, w3) := delete_document default_settings "doc" w2 in
  indexed = Returned 1001 /\ length (collection w1) = 1001%nat /\
  first = Returned 1000 /\ length (collection w2) = 1%nat /\
  second = Returned 1 /\ length (collection w3) = 0%nat.
Proof. vm_compute. repeat split. Qed.

(** Within one page the round trip is exact: three chunks, three points
    deleted, and nothing left for a second call. *)
Lemma delete_document_small_round_trip :
  let '(indexed, w1) :=
    index_document default_settings char_splitter (constant_embeddings default_settings)
                   "doc" (text_of_length 3) None initial_world in
  let '(first, w2) := delete_document default_settings "doc" w1 in
  let '(second, w3) := delete_document default_settings "doc" w2 in
  indexed = Returned 3 /\ length (collection w1) = 3%nat /\
  first = Returned 3 /\ collection w2 = [] /\
  second = Returned 0 /\ collection w3 = [].
Proof. vm_compute. repeat split. Qed.

(** An embedding of another size than the collection's is refused by the
    store: the upsert raises and nothing is stored. *)
Example index_document_wrong_vector_size :
  let '(indexed, w1) :=
    index_document default_settings char_splitter null_embeddings
                   "doc" (text_of_length 3) None initial_world in
  indexed = Raised rejected /\ collection w1 = [] /\ length (requests w1) = 3%nat.
Proof. vm_compute. repeat split. Qed.

End RagSpec.

(** * Further properties of the code *)

(** ** The LLM client *)

Module LlmExtra.
Import Llm.

Lemma with_requests_same w : with_requests (requests w) w = w.
Proof. by destruct w. Qed.

Lemma with_requests_twice rs rs' w :
  with_requests rs (with_requests rs' w) = with_requests rs w.
Proof. done. Qed.

Section Client.
Variable ollama_generate : nat -> string -> outcome string.
Variable ollama_embeddings : nat -> string -> outcome (list spec_float).

Lemma generate_once_eq prompt w :
  generate_once ollama_generate prompt w =
  (ollama_generate (length (requests w)) prompt,
   with_requests (PostGenerate prompt :: requests w) w).
Proof.
  unfold generate_once, send, bind, ret, raise.
  by destruct (ollama_generate (length (requests w)) prompt).
Qed.

(** The client only adds to the requests. *)
Lemma generate_frame prompt w :
  exists r rs, generate ollama_generate prompt w = (r, with_requests rs w).
Proof.
  unfold generate, retry, try_except. rewrite generate_once_eq.
  destruct (ollama_generate _ prompt); [by eexists _, _|].
  rewrite generate_once_eq.
  destruct (ollama_generate _ prompt); [by eexists _, _|].
  rewrite generate_once_eq. by eexists _, _.
Qed.

(** X1.  [generate] makes between one and three attempts, each sending the
    same request; it stops before the third attempt only on an answer, and
    its outcome is the outcome of the last attempt it made.  The vector
    store is not touched. *)
Theorem generate_attempts prompt w :
  exists (k : nat) r w',
    generate ollama_generate prompt w = (r, w') /\
    (1 <= k <= 3)%nat /\
    requests w' = replicate k (PostGenerate prompt) ++ requests w /\
    collection w' = collection w /\
    r = ollama_generate (length (requests w) + k - 1)%nat prompt /\
    ((k < 3)%nat -> exists response, r = Returned response).
Proof.
  unfold generate, retry, try_except.
  rewrite generate_once_eq.
  destruct (ollama_generate (length (requests w)) prompt) as [s1|e1] eqn:H1.
  { eexists 1%nat, _, _. split; [reflexivity|].
    repeat split; simpl; try lia; try done.
    - by rewrite Nat.add_sub, H1.
    - by exists s1. }
  rewrite generate_once_eq. simpl.
  destruct (ollama_generate (S (length (requests w))) prompt) as [s2|e2] eqn:H2.
  { eexists 2%nat, _, _. split; [reflexivity|].
    repeat split; simpl; try lia; try done.
    - replace (length (requests w) + 2 - 1)%nat with (S (length (requests w))) by lia.
      by rewrite H2.
    - by exists s2. }
  rewrite generate_once_eq. simpl.
  eexists 3%nat, _, _. split; [reflexivity|].
  repeat split; simpl; try lia; try done.
  by replace (length (requests w) + 3 - 1)%nat with (S (S (length (requests w)))) by lia.
Qed.

(** The loop of [embed] over a backend whose answers all satisfy [P]. *)
Lemma embed_loop (P : list spec_float -> Prop) texts :
  (forall n t, exists v, ollama_embeddings n t = Returned v /\ P v) ->
  forall acc w,
  exists vs,
    for_each texts
      (fun embeddings text =>
         (n <- send (PostEmbeddings text) ;;
          match ollama_embeddings n text with
          | Returned v => ret (embeddings ++ [v])
          | Raised e => raise e
          end)%eff) acc w
    = (Returned (acc ++ vs),
       with_requests (map PostEmbeddings (reverse texts) ++ requests w) w) /\
    length vs = length texts /\ Forall P vs.
Proof.
  intros Hok. induction texts as [|t texts IH]; intros acc w; simpl.
  - exists []. rewrite app_nil_r, with_requests_same. by repeat split.
  - unfold bind at 1. unfold bind at 1. unfold send at 1.
    destruct (Hok (length (requests w)) t) as (v & Hv & HP). rewrite Hv. unfold ret at 1.
    destruct (IH (acc ++ [v]) (with_requests (PostEmbeddings t :: requests w) w))
      as (vs & Heq & Hlen & HPs).
    exists (v :: vs). rewrite Heq. cbn [requests with_requests].
    rewrite <- app_assoc, with_requests_twice. split; [|split].
    + rewrite reverse_cons, map_app, <- app_assoc. done.
    + simpl. by rewrite Hlen.
    + by constructor.
Qed.

Lemma embed_answered_with (P : list spec_float -> Prop) texts w :
  (forall n t, exists v, ollama_embeddings n t = Returned v /\ P v) ->
  exists vs,
    embed ollama_embeddings texts w
    = (Returned vs, with_requests (map PostEmbeddings (reverse texts) ++ requests w) w) /\
    length vs = length texts /\ Forall P vs.
Proof.
  intros Hok. unfold embed, retry, try_except, embed_once.
  destruct (embed_loop P texts Hok [] w) as (vs & Heq & Hrest).
  rewrite Heq. by exists vs.
Qed.

Lemma embed_answered texts w :
  (forall n t, exists v, ollama_embeddings n t = Returned v) ->
  exists vs w',
    embed ollama_embeddings texts w = (Returned vs, w') /\
    length vs = length texts /\
    requests w' = map PostEmbeddings (reverse texts) ++ requests w /\
    collection w' = collection w /\ uuids w' = uuids w.
Proof.
  intros Hok.
  destruct (embed_answered_with (fun _ => True) texts w) as (vs & Heq & Hlen & _).
  { intros n t. destruct (Hok n t) as [v Hv]. by exists v. }
  exists vs. eexists. split; [exact Heq|]. by repeat split.
Qed.

(** Whatever the backend does, [embed] only adds to the requests. *)
Lemma embed_frame texts w :
  exists r rs, embed ollama_embeddings texts w = (r, with_requests rs w).
Proof.
  assert (Hloop : forall texts acc w,
    exists r rs,
      for_each texts
        (fun embeddings text =>
           (n <- send (PostEmbeddings text) ;;
            match ollama_embeddings n text with
            | Returned v => ret (embeddings ++ [v])
            | Raised e => raise e
            end)%eff) acc w = (r, with_requests rs w)).
  { clear texts w. induction texts as [|t texts IH]; intros acc w; simpl.
    - eexists _, (requests w). by rewrite with_requests_same.
    - unfold bind at 1. unfold bind at 1. unfold send at 1.
      destruct (ollama_embeddings (length (requests w)) t) as [v|e].
      + unfold ret at 1.
        destruct (IH (acc ++ [v]) (with_requests (PostEmbeddings t :: requests w) w))
          as (r & rs & Heq).
        rewrite Heq. by eexists _, _.
      + unfold raise. by eexists _, _. }
  unfold embed, retry, try_except, embed_once.
  destruct (Hloop texts [] w) as (r1 & rs1 & H1). rewrite H1.
  destruct r1; [by eexists _, _|].
  destruct (Hloop texts [] (with_requests rs1 w)) as (r2 & rs2 & H2). rewrite H2.
  destruct r2; [by eexists _, _|].
  destruct (Hloop texts [] (with_requests rs2 (with_requests rs1 w))) as (r3 & rs3 & H3).
  rewrite H3. by eexists _, _.
Qed.

(** X2.  When the embedding backend answers every request, [embed] returns
    one vector per text after sending one request per text, in the order
    of the texts, and leaves the vector store alone. *)
Theorem embed_one_vector_per_text texts w :
  (forall n t, exists v, ollama_embeddings n t = Returned v) ->
  exists vs w',
    embed ollama_embeddings texts w = (Returned vs, w') /\
    length vs = length texts /\
    requests w' = map PostEmbeddings (reverse texts) ++ requests w /\
    collection w' = collection w /\ uuids w' = uuids w.
Proof. apply embed_answered. Qed.

End Client.

Lemma embed_one_vector_per_text_witness :
  exists vs w',
    embed Notions.null_embeddings ["alpha"; "beta"]%string initial_world
    = (Returned vs, w') /\
    length vs = length ["alpha"; "beta"]%string /\
    requests w' =
      map PostEmbeddings (reverse ["alpha"; "beta"]%string) ++ requests initial_world /\
    collection w' = collection initial_world /\ uuids w' = uuids initial_world.
Proof.
  apply (embed_one_vector_per_text Notions.null_embeddings).
  intros n t. by exists [].
Defined.

End LlmExtra.

(** ** The router *)

Module RouterExtra.
Import PyDict PyDictFacts Router Notions RouterFacts.

#[local] Instance desc_transitive :
  Transitive (fun a b : AgentType * Z => snd b <= snd a).
Proof. intros x y z Hxy Hyz. lia. Qed.

Section Scorer.
Variable Match : Type.
Variable findall : Pattern -> string -> list Match.
Variable ollama_generate : nat -> string -> outcome string.

(** X3.  The score map holds exactly the categories of the pattern table
    whose patterns match at least once, each with the sum of the match
    counts of its patterns, and no category twice. *)
Theorem pattern_match_entries text :
  (forall a s,
      (a, s) ∈ _pattern_match Match findall text <->
      exists patterns,
        (a, patterns) ∈ INTENT_PATTERNS /\
        s = pattern_score Match findall patterns text /\ 0 < s) /\
  NoDup (map fst (_pattern_match Match findall text)).
Proof.
  split; [|apply pattern_match_wf].
  intros a s. split.
  - intros Hin.
    destruct (pattern_match_elem Match findall text (a, s) Hin) as (ps & H1 & H2 & H3).
    by exists ps.
  - intros (ps & Hin & -> & Hpos).
    rewrite pattern_match_omap. apply list_elem_of_omap.
    exists (a, ps). split; [exact Hin|].
    unfold scored. simpl. by rewrite (proj2 (Z.ltb_lt _ _) Hpos).
Qed.

(** X4.  [route] reaches the backend only for a text without any pattern
    match: with a forced agent, or with a non-empty score map, it returns
    without sending a request or touching the store. *)
Theorem route_offline text context force_agent w :
  is_Some force_agent \/ _pattern_match Match findall text <> [] ->
  snd (route Match findall ollama_generate text context force_agent w) = w.
Proof.
  intros Hcase. destruct force_agent as [forced|].
  { unfold route. by rewrite agent_truthy_all. }
  destruct Hcase as [[? [=]]|Hne].
  destruct (_pattern_match Match findall text) as [|[agent h] [|second rest]] eqn:Hs;
    [done| |].
  - by rewrite (route_single Match findall ollama_generate text context w agent h Hs).
  - destruct (route_multi Match findall ollama_generate text context w)
      as (top & snd' & rest' & _ & Hroute).
    { rewrite Hs. simpl. lia. }
    by rewrite Hroute.
Qed.

(** X5.  A decision taken by method [pattern] names a category that has
    more than twice the hits of every other category of the score map. *)
Theorem pattern_method_dominates text context w agent meta w' :
  route Match findall ollama_generate text context None w = (Returned (agent, meta), w') ->
  method meta = "pattern"%string ->
  exists h,
    (agent, h) ∈ _pattern_match Match findall text /\
    forall c hc, (c, hc) ∈ _pattern_match Match findall text -> c <> agent -> 2 * hc < h.
Proof.
  intros Hroute Hmethod.
  pose proof (pattern_match_wf Match findall text) as Hwf.
  destruct (_pattern_match Match findall text) as [|[a0 h0] [|second rest]] eqn:Hs.
  - destruct (llm_classify_returns ollama_generate text context w) as (r & w1 & Hc).
    rewrite (route_empty Match findall ollama_generate text context w r w1 Hs Hc) in Hroute.
    destruct r; injection Hroute as <- <- <-; discriminate Hmethod.
  - rewrite (route_single Match findall ollama_generate text context w a0 h0 Hs) in Hroute.
    injection Hroute as <- <- <-. exists h0. split; [by apply elem_of_cons; left|].
    intros c hc Hin Hne. apply list_elem_of_singleton in Hin. congruence.
  - destruct (route_multi Match findall ollama_generate text context w)
      as (top & snd' & rest' & Hsorted & Hroute').
    { rewrite Hs. simpl. lia. }
    rewrite Hs in Hsorted, Hroute'. rewrite Hroute' in Hroute.
    destruct (snd snd' * 2 <? snd top) eqn:Hclear;
      injection Hroute as <- <- <-; [|discriminate Hmethod].
    apply Z.ltb_lt in Hclear.
    pose proof (sorted_desc_perm ((a0, h0) :: second :: rest)) as Hperm.
    pose proof (sorted_desc_sorted ((a0, h0) :: second :: rest)) as Hsrt.
    rewrite Hsorted in Hperm, Hsrt.
    apply Sorted_StronglySorted in Hsrt; [|apply _].
    apply StronglySorted_inv in Hsrt as [Hsrt Htop].
    apply StronglySorted_inv in Hsrt as [_ Hsnd].
    rewrite Forall_forall in Htop, Hsnd.
    exists (snd top). split.
    + rewrite <- Hperm. apply elem_of_cons. left. by destruct top.
    + intros c hc Hin Hne. rewrite <- Hperm in Hin.
      apply elem_of_cons in Hin as [Heq|Hin].
      { destruct top; simpl in *. congruence. }
      assert (hc <= snd snd').
      { apply elem_of_cons in Hin as [<-|Hin]; [simpl; lia|].
        apply (Hsnd (c, hc) Hin). }
      lia.
Qed.

(** X6.  When the backend answers the first request with a reply that
    normalises to the name of a category (surrounding whitespace stripped,
    letters put in lower case, colons and spaces removed), the fallback
    classifier returns that category after this single request; the name
    of the category is itself such a reply.  Replies are texts of
    characters below U+0100, with the whitespace and the capital letters
    Python knows in that range. *)
Theorem llm_classify_names_every_agent text context w reply agent :
  ollama_generate (length (requests w)) (classify_prompt text) = Returned reply ->
  normalize_reply reply = agent_value agent ->
  _llm_classify ollama_generate text context w =
  (Returned (Some agent),
   with_requests (PostGenerate (classify_prompt text) :: requests w) w) /\
  normalize_reply (agent_value agent) = agent_value agent.
Proof.
  intros Hreply Hname. split; [|by destruct agent].
  rewrite llm_classify_eq.
  unfold Llm.generate, Llm.retry, try_except.
  rewrite LlmExtra.generate_once_eq, Hreply, Hname.
  by destruct agent.
Qed.

End Scorer.

(** X7.  On a well-formed score map the conflict resolver returns [chat]
    when the map is empty and otherwise a category of the map whose
    weighted score no other category exceeds. *)
Theorem resolve_returns_maximum (scores : list (AgentType * Z)) :
  dict_wf scores ->
  (scores = [] -> _resolve_conflicts scores = CHAT) /\
  (scores <> [] ->
   exists s,
     (_resolve_conflicts scores, s) ∈ scores /\
     forall c sc, (c, sc) ∈ scores ->
                  sc * priority c <= s * priority (_resolve_conflicts scores)).
Proof.
  intros Hwf. split; [by intros ->|].
  intros Hne.
  destruct (resolve_is_max scores Hwf Hne) as ([a s] & Hin & Hres & Hmax).
  simpl in Hres. exists s. rewrite Hres. split; [exact Hin|].
  intros c sc Hc. apply (Hmax (c, sc) Hc).
Qed.

Lemma route_offline_witness :
  snd (route unit engine_save_message unreachable "save the message" None None initial_world)
  = initial_world.
Proof.
  apply (route_offline unit engine_save_message unreachable "save the message" None None
           initial_world).
  right. vm_compute. discriminate.
Defined.

Lemma pattern_method_dominates_witness :
  exists h,
    (FILE, h) ∈ _pattern_match unit Examples.engine_file_request "read, copy and list" /\
    forall c hc,
      (c, hc) ∈ _pattern_match unit Examples.engine_file_request "read, copy and list" ->
      c <> FILE -> 2 * hc < h.
Proof.
  apply (pattern_method_dominates unit Examples.engine_file_request unreachable
           "read, copy and list" None initial_world FILE
           (Build_Metadata "pattern" (Some [(FILE, 3); (CHAT, 1)]) (Some PyFloat.f0_9))
           initial_world).
  - vm_compute. reflexivity.
  - reflexivity.
Defined.

Lemma llm_classify_names_every_agent_witness :
  _llm_classify (constant_reply Examples.reply_mail) "xyz123" None initial_world =
  (Returned (Some MAIL),
   with_requests (PostGenerate (classify_prompt "xyz123") :: requests initial_world)
                 initial_world) /\
  normalize_reply (agent_value MAIL) = agent_value MAIL.
Proof.
  apply (llm_classify_names_every_agent (constant_reply Examples.reply_mail) "xyz123" None
           initial_world Examples.reply_mail MAIL).
  - reflexivity.
  - vm_compute. reflexivity.
Defined.

Lemma resolve_returns_maximum_witness :
  ([(FILE, 1); (CODE, 1); (CHAT, 4)] = [] ->
   _resolve_conflicts [(FILE, 1); (CODE, 1); (CHAT, 4)] = CHAT) /\
  ([(FILE, 1); (CODE, 1); (CHAT, 4)] <> [] ->
   exists s,
     (_resolve_conflicts [(FILE, 1); (CODE, 1); (CHAT, 4)], s)
     ∈ [(FILE, 1); (CODE, 1); (CHAT, 4)] /\
     forall c sc, (c, sc) ∈ [(FILE, 1); (CODE, 1); (CHAT, 4)] ->
                  sc * priority c
                  <= s * priority (_resolve_conflicts [(FILE, 1); (CODE, 1); (CHAT, 4)])).
Proof.
  apply (resolve_returns_maximum [(FILE, 1); (CODE, 1); (CHAT, 4)]).
  apply (bool_decide_unpack _). vm_compute. reflexivity.
Defined.

End RouterExtra.

(** ** The RAG pipeline: indexing, search and deletion *)

Module RagExtra.
Import Rag Notions RagNotions RagFacts.

Lemma with_uuids_same w : with_uuids (uuids w) w = w.
Proof. by destruct w. Qed.

Lemma upsert_point_fresh (c : list Point) (p : Point) :
  Forall (fun q => point_id q <> point_id p) c -> upsert_point c p = c ++ [p].
Proof.
  induction 1 as [|q c Hq _ IH]; simpl; [done|].
  rewrite decide_False by done. by rewrite IH.
Qed.

Lemma upsert_point_elem (c : list Point) (p q : Point) :
  q ∈ upsert_point c p -> q ∈ c \/ q = p.
Proof.
  induction c as [|x c IH]; simpl.
  - intros Hq. apply list_elem_of_singleton in Hq. by right.
  - destruct (decide (point_id x = point_id p)).
    + intros Hq. apply elem_of_cons in Hq as [->|Hq]; [by right|].
      left. by apply elem_of_cons; right.
    + intros Hq. apply elem_of_cons in Hq as [->|Hq]; [left; by apply elem_of_cons; left|].
      destruct (IH Hq) as [Hc | ->]; [left; by apply elem_of_cons; right|by right].
Qed.

Lemma upsert_points_elem (points : list Point) : forall (c : list Point) (q : Point),
  q ∈ fold_left upsert_point points c -> q ∈ c \/ q ∈ points.
Proof.
  induction points as [|p points IH]; intros c q; simpl; [by left|].
  intros Hq. destruct (IH _ _ Hq) as [Hc|Hp]; [|right; by apply elem_of_cons; right].
  destruct (upsert_point_elem _ _ _ Hc) as [Hc' | ->]; [by left|].
  right. by apply elem_of_cons; left.
Qed.

Lemma points_from_ids doc_id total metadata base i items :
  Forall (fun p => (base <= point_id p < base + N.of_nat (length items))%N)
         (points_from doc_id total metadata base i items).
Proof.
  revert base i. induction items as [|[chunk v] items IH]; intros base i; simpl.
  - constructor.
  - constructor; [simpl; lia|].
    eapply Forall_impl; [apply IH|]. simpl. intros p Hp. lia.
Qed.

Lemma length_points_from doc_id total metadata base i items :
  length (points_from doc_id total metadata base i items) = length items.
Proof.
  revert base i. induction items as [|[chunk v] items IH]; intros base i; simpl; [done|].
  by rewrite IH.
Qed.

Lemma points_from_sized doc_id total metadata (d : nat) items : forall base i,
  Forall (fun item : string * list spec_float => length (snd item) = d) items ->
  forallb (fun p => (length (vector p) =? d)%nat)
          (points_from doc_id total metadata base i items) = true.
Proof.
  induction items as [|[chunk v] items IH]; intros base i Hall; simpl; [done|].
  apply Forall_cons in Hall as [Hv Hall]. simpl in Hv.
  rewrite (proj2 (Nat.eqb_eq _ _) Hv). simpl. by apply IH.
Qed.

Lemma zip_sized (d : nat) (chunks : list string) (vs : list (list spec_float)) :
  Forall (fun v => length v = d) vs ->
  Forall (fun item : string * list spec_float => length (snd item) = d) (zip chunks vs).
Proof.
  intros Hall. revert chunks. induction Hall as [|v vs Hv _ IH]; intros [|c chunks]; simpl;
    try constructor; try done.
Qed.

Lemma upsert_points_from doc_id total metadata items : forall base i c,
  Forall (fun p => (point_id p < base)%N) c ->
  fold_left upsert_point (points_from doc_id total metadata base i items) c
  = c ++ points_from doc_id total metadata base i items.
Proof.
  induction items as [|[chunk v] items IH]; intros base i c Hc; simpl.
  - by rewrite app_nil_r.
  - rewrite upsert_point_fresh.
    + rewrite IH; [by rewrite <- app_assoc|].
      apply Forall_app. split.
      * eapply Forall_impl; [exact Hc|]. simpl. intros p Hp. lia.
      * repeat constructor. simpl. lia.
    + eapply Forall_impl; [exact Hc|]. simpl. intros p Hp. lia.
Qed.

Lemma points_loop doc_id total metadata items : forall i acc w,
  for_each (zip (seq i (length items)) items)
    (fun points (item : nat * (string * list spec_float)) =>
       let '(i, (chunk, embedding)) := item in
       (point_id <- uuid4 ;;
        let payload := chunk_payload doc_id chunk i total metadata in
        ret (points ++ [ {| point_id := point_id; vector := embedding;
                            payload := payload |} ]))%eff)
    acc w
  = (Returned (acc ++ points_from doc_id total metadata (uuids w) i items),
     with_uuids (uuids w + N.of_nat (length items))%N w).
Proof.
  induction items as [|[chunk v] items IH]; intros i acc w.
  - simpl. unfold ret. rewrite app_nil_r, N.add_0_r. by rewrite with_uuids_same.
  - cbn [length seq zip zip_with for_each points_from].
    unfold bind at 1. unfold bind at 1. unfold uuid4 at 1. unfold ret at 1.
    rewrite IH. cbn [uuids with_uuids].
    rewrite <- app_assoc. simpl app.
    replace (N.succ (uuids w) + N.of_nat (length items))%N
      with (uuids w + N.of_nat (S (length items)))%N by lia.
    reflexivity.
Qed.

Lemma points_from_elem doc_id total metadata items : forall base i p,
  p ∈ points_from doc_id total metadata base i items ->
  exists (j : nat) chunk v,
    items !! j = Some (chunk, v) /\
    point_id p = (base + N.of_nat j)%N /\
    payload p = chunk_payload doc_id chunk (i + j) total metadata.
Proof.
  induction items as [|[chunk v] items IH]; intros base i p Hp; simpl in Hp.
  - by apply elem_of_nil in Hp.
  - apply elem_of_cons in Hp as [->|Hp].
    + exists 0%nat, chunk, v. simpl. rewrite N.add_0_r, Nat.add_0_r. done.
    + destruct (IH _ _ _ Hp) as (j & c & v' & Hj & Hid & Hpay).
      exists (S j), c, v'. simpl. split; [done|]. split; [lia|].
      rewrite Hpay. f_equal. lia.
Qed.

Lemma chunk_payload_builtin doc_id chunk i total metadata :
  metadata_keeps "doc_id" metadata -> metadata_keeps "content" metadata ->
  metadata_keeps "chunk_index" metadata -> metadata_keeps "total_chunks" metadata ->
  chunk_payload doc_id chunk i total metadata !! "doc_id"%string = Some (VStr doc_id) /\
  chunk_payload doc_id chunk i total metadata !! "content"%string = Some (VStr chunk) /\
  chunk_payload doc_id chunk i total metadata !! "chunk_index"%string
  = Some (VInt (Z.of_nat i)) /\
  chunk_payload doc_id chunk i total metadata !! "total_chunks"%string
  = Some (VInt (Z.of_nat total)).
Proof.
  unfold metadata_keeps, chunk_payload. intros H1 H2 H3 H4.
  repeat split; rewrite lookup_union_r by done; by simplify_map_eq.
Qed.

Lemma chunk_payload_metadata doc_id chunk i total metadata key value :
  default ∅ metadata !! key = Some value ->
  chunk_payload doc_id chunk i total metadata !! key = Some value.
Proof. intros H. unfold chunk_payload. by apply lookup_union_Some_l. Qed.

Lemma search_loop (hits : list ScoredPoint) : forall acc w docs w',
  for_each hits
    (fun documents hit =>
       let payload := default ∅ (hit_payload hit) in
       match default (VStr "") (payload !! "content"%string) with
       | VStr text =>
           ret (documents ++
                [ {| doc_ident := hit_id hit;
                     doc_content := text;
                     doc_metadata := delete "content"%string payload;
                     doc_score := Some (hit_score hit) |} ])
       | VInt _ => raise (PyException "ValidationError")
       end)
    acc w = (Returned docs, w') ->
  w' = w /\
  exists new,
    docs = acc ++ new /\
    map doc_ident new = map hit_id hits /\
    map doc_score new = map (fun hit => Some (hit_score hit)) hits /\
    Forall (fun d => doc_metadata d !! "content"%string = None) new.
Proof.
  induction hits as [|hit hits IH]; intros acc w docs w' Hrun; simpl in Hrun.
  - injection Hrun as <- <-. split; [done|]. exists []. by rewrite app_nil_r.
  - unfold bind in Hrun.
    destruct (default (VStr "") (default ∅ (hit_payload hit) !! "content"%string))
      as [text|n]; [|discriminate Hrun].
    unfold ret at 1 in Hrun.
    destruct (IH _ _ _ _ Hrun) as (-> & new & -> & Hid & Hsc & Hmeta).
    split; [done|].
    eexists (_ :: new). rewrite <- app_assoc. split; [reflexivity|].
    simpl. rewrite Hid, Hsc. repeat split; try done.
    constructor; [|exact Hmeta]. simpl. apply lookup_delete_eq.
Qed.

Section Pipeline.
Variable settings : Settings.
Variable split_text : string -> list string.
Variable qdrant_rank :
  list Point -> list spec_float -> option (list (string * pyval)) -> Z -> spec_float ->
  list ScoredPoint.
Variable ollama_generate : nat -> string -> outcome string.
Variable ollama_embeddings : nat -> string -> outcome (list spec_float).

(** Whatever the backend and the store do, [index_document] returns only
    the number of chunks, and leaves the collection as it was or upserts
    into it the points prepared for the chunks. *)
Lemma index_document_cases doc_id content metadata w :
  exists r w',
    index_document settings split_text ollama_embeddings doc_id content metadata w
    = (r, w') /\
    (forall n, r = Returned n -> n = Z.of_nat (length (split_text content))) /\
    (collection w' = collection w \/
     exists vs,
       collection w' =
       fold_left upsert_point
         (points_from doc_id (length (split_text content)) metadata (uuids w) 0
                      (zip (split_text content) vs))
         (collection w)).
Proof.
  unfold index_document, _get_llm. unfold bind at 1. unfold ret at 1. unfold bind at 1.
  destruct (get_qdrant_frame settings w) as (r0 & w0 & Hget & Hreq & Hcol & Huu & Hfl & _).
  rewrite Hget. destruct r0 as [[]|e0]; [|eexists _, _; split; [done|]; by split; [|left]].
  destruct (split_text content) as [|chunk chunks] eqn:Hsplit.
  { eexists _, _. split; [reflexivity|]. split; [by intros n [= <-]|by left]. }
  set (cs := chunk :: chunks) in *.
  unfold bind at 1.
  destruct (LlmExtra.embed_frame ollama_embeddings cs w0) as (r1 & rs & Hembed).
  rewrite Hembed. destruct r1 as [vs|e1]; [|eexists _, _; split; [done|]; by split; [|left]].
  unfold bind at 1. unfold enumerate.
  pose proof (points_loop doc_id (length cs) metadata (zip cs vs) 0 []
                          (with_requests rs w0)) as Hloop.
  cbv zeta in Hloop. rewrite Hloop. clear Hloop.
  rewrite app_nil_l. cbn [uuids with_requests]. rewrite Huu.
  set (points := points_from doc_id (length cs) metadata (uuids w) 0 (zip cs vs)).
  unfold bind at 1. store_steps.
  destruct (store_faults w0 (store_calls w0)) as [e|];
    [eexists _, _; split; [done|]; by split; [|left]|].
  destruct (dimension w0) as [d|]; [|eexists _, _; split; [done|]; by split; [|left]].
  destruct (forallb _ points); [|eexists _, _; split; [done|]; by split; [|left]].
  store_steps. eexists _, _. split; [reflexivity|]. world_fields.
  split; [by intros n [= <-]|]. right. exists vs. by rewrite Hcol.
Qed.

Lemma index_document_result doc_id content metadata w n w' :
  index_document settings split_text ollama_embeddings doc_id content metadata w
  = (Returned n, w') ->
  n = Z.of_nat (length (split_text content)).
Proof.
  destruct (index_document_cases doc_id content metadata w) as (r & w1 & Heq & Hret & _).
  rewrite Heq. intros [= -> ->]. by apply Hret.
Qed.

Lemma index_document_appends doc_id content metadata w :
  embeddings_sized settings ollama_embeddings ->
  store_answers w -> store_ready settings w -> store_fresh w ->
  exists vs w',
    index_document settings split_text ollama_embeddings doc_id content metadata w
    = (Returned (Z.of_nat (length (split_text content))), w') /\
    length vs = length (split_text content) /\
    collection w' =
      collection w ++
      points_from doc_id (length (split_text content)) metadata (uuids w) 0
                  (zip (split_text content) vs) /\
    length (collection w') = (length (collection w) + length (split_text content))%nat /\
    requests w' = map PostEmbeddings (reverse (split_text content)) ++ requests w /\
    store_fresh w' /\ store_answers w' /\ store_ready settings w'.
Proof.
  intros Hok Hans Hready Hfresh.
  unfold index_document, _get_llm. unfold bind at 1. unfold ret at 1. unfold bind at 1.
  destruct (get_qdrant_served settings w Hans Hready)
    as (w0 & Hget & Hreq & Hcol & Huu & Hfl & Hdim).
  rewrite Hget.
  assert (Hans0 : store_answers w0) by (intros n; by rewrite Hfl).
  assert (Hfresh0 : store_fresh w0) by (unfold store_fresh; by rewrite Hcol, Huu).
  destruct (split_text content) as [|chunk chunks] eqn:Hsplit.
  { exists [], w0. unfold ret. simpl. rewrite app_nil_r, Hcol, Hreq, Nat.add_0_r.
    do 5 (split; [done|]). split; [exact Hfresh0|]. split; [exact Hans0|by left]. }
  set (cs := chunk :: chunks) in *.
  destruct (LlmExtra.embed_answered_with ollama_embeddings
              (fun v => length v = qdrant_embedding_size settings) cs w0 Hok)
    as (vs & Hembed & Hlen & Hsized).
  unfold bind at 1. rewrite Hembed.
  assert (Hzip : length (zip cs vs) = length cs).
  { rewrite length_zip_with. lia. }
  unfold bind at 1. unfold enumerate.
  pose proof (points_loop doc_id (length cs) metadata (zip cs vs) 0 []
                (with_requests (map PostEmbeddings (reverse cs) ++ requests w0) w0)) as Hloop.
  cbv zeta in Hloop. rewrite Hloop. clear Hloop.
  rewrite app_nil_l. cbn [uuids with_requests]. rewrite Huu.
  unfold bind at 1. store_steps. rewrite Hfl, Hans, Hdim.
  rewrite (points_from_sized doc_id (length cs) metadata _ (zip cs vs) (uuids w) 0
             (zip_sized _ cs vs Hsized)).
  store_steps. rewrite Hcol.
  rewrite (upsert_points_from doc_id (length cs) metadata (zip cs vs) (uuids w) 0
             (collection w) Hfresh).
  eexists vs, _. split; [reflexivity|]. world_fields.
  split; [done|]. split; [done|]. split.
  { rewrite length_app, length_points_from. lia. }
  split; [by rewrite Hreq|]. split; [|split; [exact Hans0|by left]].
  unfold store_fresh. world_fields. apply Forall_app. split.
  - eapply Forall_impl; [exact Hfresh|]. simpl. intros p Hp. lia.
  - eapply Forall_impl; [apply points_from_ids|]. simpl. intros p Hp. lia.
Qed.

(** X8.  When the embedding backend answers every request with a vector of
    the configured size, the vector store answers every call, its
    collection has the configured vector size or is yet to be created, and
    every stored identifier is older than the next one generated,
    [index_document] returns the number of chunks, sends one embedding
    request per chunk, and appends one point per chunk, in chunk order,
    after the points already stored, which it leaves as they were. *)
Theorem index_document_stores_chunks doc_id content metadata w :
  embeddings_sized settings ollama_embeddings ->
  store_answers w -> store_ready settings w -> store_fresh w ->
  exists vs w',
    index_document settings split_text ollama_embeddings doc_id content metadata w
    = (Returned (Z.of_nat (length (split_text content))), w') /\
    length vs = length (split_text content) /\
    collection w' =
      collection w ++
      points_from doc_id (length (split_text content)) metadata (uuids w) 0
                  (zip (split_text content) vs) /\
    length (collection w') = (length (collection w) + length (split_text content))%nat /\
    requests w' = map PostEmbeddings (reverse (split_text content)) ++ requests w /\
    store_fresh w' /\ store_answers w' /\ store_ready settings w'.
Proof. apply index_document_appends. Qed.

(** X9.  With metadata that leaves the four built-in keys alone, and
    whatever the embedding backend and the vector store do, every point
    of the collection after [index_document] was there before or carries
    the document identifier, the text of one chunk, the position of that
    chunk and the number of chunks, the position being below the number
    of chunks. *)
Theorem index_document_chunk_payloads doc_id content metadata w :
  metadata_keeps "doc_id" metadata -> metadata_keeps "content" metadata ->
  metadata_keeps "chunk_index" metadata -> metadata_keeps "total_chunks" metadata ->
  forall p,
    p ∈ collection (snd (index_document settings split_text ollama_embeddings
                                        doc_id content metadata w)) ->
    p ∈ collection w \/
    exists (i : nat) chunk,
      split_text content !! i = Some chunk /\
      (i < length (split_text content))%nat /\
      payload p !! "doc_id"%string = Some (VStr doc_id) /\
      payload p !! "content"%string = Some (VStr chunk) /\
      payload p !! "chunk_index"%string = Some (VInt (Z.of_nat i)) /\
      payload p !! "total_chunks"%string
      = Some (VInt (Z.of_nat (length (split_text content)))).
Proof.
  intros K1 K2 K3 K4 p Hp.
  destruct (index_document_cases doc_id content metadata w)
    as (r & w' & Heq & _ & [Hcol|[vs Hcol]]);
    rewrite Heq in Hp; simpl in Hp; rewrite Hcol in Hp; [by left|].
  apply upsert_points_elem in Hp as [Hp|Hp]; [by left|right].
  destruct (points_from_elem _ _ _ _ _ _ _ Hp) as (j & chunk & v & Hj & _ & Hpay).
  apply lookup_zip_with_Some in Hj as (c & v' & Hcv & Hc & _).
  injection Hcv as -> ->.
  exists j, c. split; [exact Hc|]. split; [by eapply lookup_lt_Some|].
  rewrite Hpay. simpl.
  by apply chunk_payload_builtin.
Qed.

(** X10.  Deleting a document of which the collection holds no point
    removes nothing: whether [delete_document] returns or raises, the
    points are as they were, and a count it returns is 0.  It does return
    0 when the vector store answers every call and its collection has the
    configured vector size or is yet to be created. *)
Theorem delete_document_unknown_id doc_id w :
  points_of doc_id w = [] ->
  collection (snd (delete_document settings doc_id w)) = collection w /\
  (forall n, fst (delete_document settings doc_id w) = Returned n -> n = 0) /\
  (store_answers w -> store_ready settings w ->
   exists w',
     delete_document settings doc_id w = (Returned 0, w') /\
     requests w' = requests w /\ uuids w' = uuids w).
Proof.
  intros Habs.
  assert (Hsame :
    List.filter
      (fun p => negb (bool_decide (point_id p ∈ map point_id (take 1000 (points_of doc_id w)))))
      (collection w) = collection w).
  { rewrite Habs. apply filter_all. intros p _.
    apply negb_true_iff, bool_decide_eq_false. apply not_elem_of_nil. }
  split; [|split].
  - destruct (delete_document_cases settings doc_id w)
      as (r & w' & Heq & _ & _ & _ & Hcol & _).
    rewrite Heq. simpl. cbv zeta in Hcol. rewrite Hsame in Hcol. by destruct Hcol.
  - intros n. destruct (delete_document_cases settings doc_id w)
      as (r & w' & Heq & _ & _ & _ & _ & Hret).
    rewrite Heq. simpl. intros Hn. destruct (Hret n Hn) as [-> _]. by rewrite Habs.
  - intros Hans Hready.
    destruct (delete_document_eq settings doc_id w Hans Hready)
      as (w' & Heq & _ & Hreq & Huu & _).
    exists w'. rewrite Heq, Habs. by repeat split.
Qed.

(** X11.  [delete_document] sends nothing to the LLM backend and generates
    no identifier; a count it returns is the number of stored points of
    the document when there are at most 1000, and 1000 otherwise; and it
    does return that count when the vector store answers every call and
    its collection has the configured vector size or is yet to be
    created. *)
Theorem delete_document_count doc_id w :
  exists r w',
    delete_document settings doc_id w = (r, w') /\
    requests w' = requests w /\ uuids w' = uuids w /\
    (forall n, r = Returned n ->
               n = Z.of_nat (length (points_of doc_id w) `min` 1000)) /\
    (store_answers w -> store_ready settings w ->
     r = Returned (Z.of_nat (length (points_of doc_id w) `min` 1000))).
Proof.
  destruct (delete_document_cases settings doc_id w)
    as (r & w' & Heq & Hreq & Huu & _ & _ & Hret).
  exists r, w'. split; [exact Heq|]. split; [exact Hreq|]. split; [exact Huu|]. split.
  - intros n Hn. destruct (Hret n Hn) as [-> _].
    rewrite length_map, length_take. f_equal. lia.
  - intros Hans Hready.
    destruct (delete_document_eq settings doc_id w Hans Hready) as (w1 & Heq1 & _).
    rewrite Heq in Heq1. injection Heq1 as -> _.
    rewrite length_map, length_take. do 2 f_equal. lia.
Qed.

(** X12.  When stored identifiers are pairwise distinct, [delete_document]
    keeps every point stored under another document identifier, whether
    it returns or raises. *)
Theorem delete_document_keeps_others doc_id w p :
  NoDup (map point_id (collection w)) ->
  p ∈ collection w ->
  field_matches "doc_id" (VStr doc_id) p = false ->
  p ∈ collection (snd (delete_document settings doc_id w)).
Proof.
  intros Hnd Hp Hother.
  destruct (delete_document_cases settings doc_id w)
    as (r & w' & Heq & _ & _ & _ & [Hcol|Hcol] & _);
    rewrite Heq; simpl; rewrite Hcol; [done|].
  apply list_elem_of_In, filter_In. split; [by apply list_elem_of_In|].
  apply negb_true_iff, bool_decide_eq_false. intros Hin.
  apply list_elem_of_fmap in Hin as (q & Hid & Hq).
  apply elem_of_take in Hq as (k & Hq & _).
  apply list_elem_of_lookup_2 in Hq.
  apply list_elem_of_In, filter_In in Hq as [Hq Hmatch].
  apply list_elem_of_In in Hq.
  assert (p = q); [|congruence].
  apply list_elem_of_lookup in Hp as (i & Hi).
  apply list_elem_of_lookup in Hq as (j & Hj).
  assert (i = j); [|congruence].
  apply (NoDup_lookup _ i j (point_id p) Hnd); rewrite list_lookup_fmap.
  - by rewrite Hi.
  - rewrite Hj. simpl. by rewrite Hid.
Qed.

(** X13.  Round trip within one page.  Let the embedding backend answer
    every request with a vector of the configured size, the vector store
    answer every call, its collection have the configured vector size or
    be yet to be created, and every stored identifier be older than the
    next one generated.  If the collection holds no point of the document,
    the metadata leaves the key [doc_id] alone and the content splits into
    at most 1000 chunks, then indexing the document and deleting it each
    return the number of chunks and restore the points of the collection,
    and a second deletion returns 0 and leaves them as they are. *)
Theorem index_then_delete_round_trip doc_id content metadata w :
  embeddings_sized settings ollama_embeddings ->
  store_answers w -> store_ready settings w -> store_fresh w ->
  points_of doc_id w = [] ->
  metadata_keeps "doc_id" metadata ->
  (length (split_text content) <= 1000)%nat ->
  exists w1 w2 w3,
    index_document settings split_text ollama_embeddings doc_id content metadata w
    = (Returned (Z.of_nat (length (split_text content))), w1) /\
    delete_document settings doc_id w1
    = (Returned (Z.of_nat (length (split_text content))), w2) /\
    collection w2 = collection w /\
    delete_document settings doc_id w2 = (Returned 0, w3) /\
    collection w3 = collection w.
Proof.
  intros Hok Hans Hready Hfresh Habs Hkeep Hsmall.
  destruct (index_document_appends doc_id content metadata w Hok Hans Hready Hfresh)
    as (vs & w1 & Heq & Hlen & Hcol & _ & _ & _ & Hans1 & Hready1).
  set (n := length (split_text content)) in *.
  set (pts := points_from doc_id n metadata (uuids w) 0 (zip (split_text content) vs)) in *.
  assert (Hlenpts : length pts = n).
  { unfold pts. rewrite length_points_from, length_zip_with. lia. }
  assert (Hmatch : forall p, p ∈ pts -> field_matches "doc_id" (VStr doc_id) p = true).
  { intros p Hp. destruct (points_from_elem _ _ _ _ _ _ _ Hp) as (j & c & v & _ & _ & Hpay).
    unfold field_matches. apply bool_decide_eq_true. rewrite Hpay.
    unfold chunk_payload. rewrite lookup_union_r by exact Hkeep. by simplify_map_eq. }
  assert (Hmatching : points_of doc_id w1 = pts).
  { unfold points_of in *. rewrite Hcol, List.filter_app, Habs. simpl.
    by apply filter_all. }
  assert (Hold : forall p, p ∈ collection w -> point_id p ∉ map point_id pts).
  { intros p Hp Hin. apply list_elem_of_fmap in Hin as (q & Hid & Hq).
    unfold store_fresh in Hfresh. rewrite Forall_forall in Hfresh.
    specialize (Hfresh p Hp).
    pose proof (points_from_ids doc_id n metadata (uuids w) 0 (zip (split_text content) vs))
      as Hids.
    rewrite Forall_forall in Hids. specialize (Hids q Hq). lia. }
  assert (Hfilter :
    List.filter (fun p => negb (bool_decide (point_id p ∈ map point_id pts)))
                (collection w ++ pts) = collection w).
  { rewrite List.filter_app. rewrite filter_all, filter_none; [by rewrite app_nil_r| |].
    - intros p Hp. apply negb_false_iff, bool_decide_eq_true. by apply list_elem_of_fmap_2.
    - intros p Hp. apply negb_true_iff, bool_decide_eq_false. by apply Hold. }
  destruct (delete_document_eq settings doc_id w1 Hans1 Hready1)
    as (w2 & Hdel & Hcol2 & _ & _ & Hans2 & Hready2).
  cbv zeta in Hdel, Hcol2. rewrite Hmatching in Hdel, Hcol2.
  rewrite take_ge in Hdel, Hcol2 by lia.
  rewrite length_map, Hlenpts in Hdel. rewrite Hcol, Hfilter in Hcol2.
  destruct (delete_document_eq settings doc_id w2 Hans2 Hready2)
    as (w3 & Hdel3 & Hcol3 & _).
  cbv zeta in Hdel3, Hcol3.
  assert (Habs2 : points_of doc_id w2 = []).
  { unfold points_of in *. by rewrite Hcol2. }
  rewrite Habs2 in Hdel3, Hcol3. simpl in Hdel3.
  exists w1, w2, w3. do 4 (split; [done|]).
  rewrite Hcol3, Hcol2. apply filter_all. intros p _.
  apply negb_true_iff, bool_decide_eq_false. apply not_elem_of_nil.
Qed.

(** X14.  Metadata that carries its own [doc_id] replaces the identifier of
    the document in every stored payload.  Let the embedding backend
    answer every request with a vector of the configured size, the vector
    store answer every call, its collection have the configured vector
    size or be yet to be created, every stored identifier be older than
    the next one generated, and the collection hold no point of the
    document.  Then, after indexing with such metadata, deleting by the
    document identifier finds none of the new points, returns 0 and
    leaves all of them in the collection. *)
Theorem metadata_doc_id_hides_document doc_id content metadata other w :
  embeddings_sized settings ollama_embeddings ->
  store_answers w -> store_ready settings w -> store_fresh w ->
  points_of doc_id w = [] ->
  default ∅ metadata !! "doc_id"%string = Some other ->
  other <> VStr doc_id ->
  exists w1 w2,
    index_document settings split_text ollama_embeddings doc_id content metadata w
    = (Returned (Z.of_nat (length (split_text content))), w1) /\
    length (collection w1) = (length (collection w) + length (split_text content))%nat /\
    delete_document settings doc_id w1 = (Returned 0, w2) /\
    collection w2 = collection w1.
Proof.
  intros Hok Hans Hready Hfresh Habs Hmeta Hne.
  destruct (index_document_appends doc_id content metadata w Hok Hans Hready Hfresh)
    as (vs & w1 & Heq & Hlen & Hcol & Hlencol & _ & _ & Hans1 & Hready1).
  assert (Habs1 : points_of doc_id w1 = []).
  { unfold points_of in *.
    rewrite Hcol, List.filter_app, Habs. simpl.
    apply filter_none. intros p Hp.
    destruct (points_from_elem _ _ _ _ _ _ _ Hp) as (j & c & v & _ & _ & Hpay).
    unfold field_matches. apply bool_decide_eq_false. rewrite Hpay.
    rewrite (chunk_payload_metadata _ _ _ _ _ _ _ Hmeta). congruence. }
  destruct (delete_document_eq settings doc_id w1 Hans1 Hready1)
    as (w2 & Hdel & Hcol2 & _).
  cbv zeta in Hdel, Hcol2. rewrite Habs1 in Hdel, Hcol2. simpl in Hdel.
  exists w1, w2. do 3 (split; [done|]).
  rewrite Hcol2. apply filter_all. intros p _.
  apply negb_true_iff, bool_decide_eq_false. apply not_elem_of_nil.
Qed.

(** What a returning [search] has asked of the store, and what it made of
    the answer. *)
Lemma search_returned q top_k score_threshold doc_id metadata_filter w docs w' :
  search settings qdrant_rank ollama_embeddings q top_k score_threshold doc_id
         metadata_filter w = (Returned docs, w') ->
  exists query_vector,
    let limit :=
      match top_k with
      | Some k => if k =? 0 then rag_top_k settings else k
      | None => rag_top_k settings
      end in
    let threshold :=
      match score_threshold with
      | Some t => if float_truthy t then t else rag_score_threshold settings
      | None => rag_score_threshold settings
      end in
    let conditions :=
      match doc_id with
      | Some d => if String.eqb d "" then [] else [("doc_id"%string, VStr d)]
      | None => []
      end ++ map_to_list (default ∅ metadata_filter) in
    let query_filter :=
      match conditions with
      | [] => None
      | _ :: _ => Some conditions
      end in
    let hits := qdrant_rank (collection w) query_vector query_filter limit threshold in
    collection w' = collection w /\
    dimension w' = Some (length query_vector) /\
    map doc_ident docs = map hit_id hits /\
    map doc_score docs = map (fun hit => Some (hit_score hit)) hits /\
    Forall (fun d => doc_metadata d !! "content"%string = None) docs.
Proof.
  unfold search, _get_llm. unfold bind at 1. unfold ret at 1. unfold bind at 1.
  destruct (get_qdrant_frame settings w) as (r0 & w0 & Hget & _ & Hcol & _ & _ & _).
  rewrite Hget. destruct r0 as [[]|e0]; [|done].
  unfold bind at 1.
  destruct (LlmExtra.embed_frame ollama_embeddings [q] w0) as (r1 & rs & Hembed).
  rewrite Hembed. destruct r1 as [vs|e1]; [|done].
  destruct vs as [|query_embedding vs]; [done|].
  unfold bind at 1. unfold qdrant_search, store_call. unfold bind at 1.
  world_fields.
  destruct (store_faults w0 (store_calls w0)) as [e|]; [done|].
  unfold bind at 1. unfold get at 1. world_fields.
  destruct (dimension w0) as [d|] eqn:Hdim; [|done].
  destruct (length query_embedding =? d)%nat eqn:Hsize; [|done].
  apply Nat.eqb_eq in Hsize. unfold ret at 1.
  intros Hrun. apply search_loop in Hrun as (-> & new & -> & Hid & Hsc & Hmeta).
  exists query_embedding. cbv zeta. world_fields.
  rewrite Hcol in Hid, Hsc. rewrite Hdim, Hsize. by repeat split.
Qed.

(** X15.  What a returning [search] asks of the store's ranking.  The
    limit is [top_k], and the configured [rag_top_k] when [top_k] is
    absent or 0; the threshold is [score_threshold], and the configured
    [rag_score_threshold] when that is absent or zero; there is no filter
    when the document identifier is absent or empty and the metadata
    filter absent or empty, and a filter that starts with the condition
    on [doc_id] when an identifier is given.  The documents returned are
    the hits of that ranking. *)
Theorem search_falsy_arguments q top_k score_threshold doc_id metadata_filter w docs w' :
  search settings qdrant_rank ollama_embeddings q top_k score_threshold doc_id
         metadata_filter w = (Returned docs, w') ->
  exists query_vector query_filter limit threshold,
    map doc_ident docs
    = map hit_id (qdrant_rank (collection w) query_vector query_filter limit threshold) /\
    (top_k = None \/ top_k = Some 0 -> limit = rag_top_k settings) /\
    (forall k, top_k = Some k -> k <> 0 -> limit = k) /\
    (score_threshold = None \/ (exists sign, score_threshold = Some (S754_zero sign)) ->
     threshold = rag_score_threshold settings) /\
    (forall t, score_threshold = Some t -> float_truthy t = true -> threshold = t) /\
    (doc_id = None \/ doc_id = Some ""%string ->
     metadata_filter = None \/ metadata_filter = Some ∅ ->
     query_filter = None) /\
    (forall d, doc_id = Some d -> d <> ""%string ->
               query_filter
               = Some (("doc_id"%string, VStr d) :: map_to_list (default ∅ metadata_filter))).
Proof.
  intros Hrun.
  destruct (search_returned _ _ _ _ _ _ _ _ Hrun) as (v & _ & _ & Hid & _ & _).
  eexists v, _, _, _. split; [exact Hid|]. split; [|split; [|split; [|split; [|split]]]].
  - by intros [->| ->].
  - intros k -> Hk. by rewrite (proj2 (Z.eqb_neq _ _) Hk).
  - by intros [->|[sign ->]].
  - by intros t -> ->.
  - by intros [->| ->] [->| ->].
  - intros d -> Hd. by rewrite (proj2 (String.eqb_neq _ _) Hd).
Qed.

(** X16.  When [search] returns, it has left the collection as it was and
    produced one document per hit of the store's ranking, in ranking
    order, each with the identifier and score of its hit and with
    metadata that has no [content] entry. *)
Theorem search_documents_follow_hits q top_k score_threshold doc_id metadata_filter
        w docs w' :
  search settings qdrant_rank ollama_embeddings q top_k score_threshold doc_id
         metadata_filter w = (Returned docs, w') ->
  collection w' = collection w /\
  Forall (fun d => doc_metadata d !! "content"%string = None) docs /\
  exists query_vector query_filter limit threshold,
    let hits := qdrant_rank (collection w) query_vector query_filter limit threshold in
    map doc_ident docs = map hit_id hits /\
    map doc_score docs = map (fun hit => Some (hit_score hit)) hits.
Proof.
  intros Hrun.
  destruct (search_returned _ _ _ _ _ _ _ _ Hrun) as (v & Hcol & _ & Hid & Hsc & Hmeta).
  split; [exact Hcol|]. split; [exact Hmeta|].
  eexists v, _, _, _. cbv zeta. split; [exact Hid|exact Hsc].
Qed.

Lemma embed_raises_when_down q e w :
  (forall n t, ollama_embeddings n t = Raised e) ->
  Llm.embed ollama_embeddings [q] w
  = (Raised e, with_requests (replicate 3 (PostEmbeddings q) ++ requests w) w).
Proof.
  intros Hdown.
  unfold Llm.embed, Llm.retry, try_except, Llm.embed_once. simpl.
  unfold bind, Llm.send, raise. simpl. by rewrite !Hdown.
Qed.

Lemma query_raises_when_embedding_fails q system_instructions top_k include_citations e w :
  (forall n t, ollama_embeddings n t = Raised e) ->
  query settings qdrant_rank ollama_generate ollama_embeddings q system_instructions top_k
        include_citations w
  = match _get_qdrant settings w with
    | (Returned _, w0) =>
        (Raised e, with_requests (replicate 3 (PostEmbeddings q) ++ requests w) w0)
    | (Raised e0, w0) => (Raised e0, w0)
    end.
Proof.
  intros Hdown.
  unfold query. unfold bind at 1. unfold search, _get_llm.
  unfold bind at 1. unfold ret at 1. unfold bind at 1.
  destruct (get_qdrant_frame settings w) as (r0 & w0 & Hget & Hreq & _).
  rewrite Hget. destruct r0 as [[]|e0]; [|done].
  unfold bind at 1. rewrite (embed_raises_when_down q e w0 Hdown). by rewrite Hreq.
Qed.

(** X17.  With the embedding backend down, [query] raises and never sends
    a generation request: when obtaining the client of the vector store
    fails it raises the store's exception before any embedding attempt,
    and otherwise, as always once the pipeline holds its client, it
    raises the backend's exception after three embedding attempts. *)
Theorem query_embedding_backend_down q system_instructions top_k include_citations e w :
  (forall n t, ollama_embeddings n t = Raised e) ->
  query settings qdrant_rank ollama_generate ollama_embeddings q system_instructions top_k
        include_citations w
  = match _get_qdrant settings w with
    | (Returned _, w0) =>
        (Raised e, with_requests (replicate 3 (PostEmbeddings q) ++ requests w) w0)
    | (Raised e0, w0) => (Raised e0, w0)
    end /\
  (client_ready w = true ->
   query settings qdrant_rank ollama_generate ollama_embeddings q system_instructions top_k
         include_citations w
   = (Raised e, with_requests (replicate 3 (PostEmbeddings q) ++ requests w) w)) /\
  exists k : nat,
    (k = 0 \/ k = 3)%nat /\
    requests (snd (query settings qdrant_rank ollama_generate ollama_embeddings q
                         system_instructions top_k include_citations w))
    = replicate k (PostEmbeddings q) ++ requests w.
Proof.
  intros Hdown.
  rewrite (query_raises_when_embedding_fails _ _ _ _ _ _ Hdown).
  split; [done|].
  destruct (get_qdrant_frame settings w) as (r0 & w0 & Hget & Hreq & _ & _ & _ & Hkept).
  rewrite Hget. split.
  - intros Hready. by destruct (Hkept Hready) as [-> ->].
  - destruct r0 as [[]|e0]; [exists 3%nat|exists 0%nat]; (split; [auto|done]).
Qed.

Lemma search_on_empty_ranking q top_k score_threshold doc_id metadata_filter w :
  (forall points v flt k t, qdrant_rank points v flt k t = []) ->
  embeddings_sized settings ollama_embeddings ->
  store_answers w -> store_ready settings w ->
  exists w1,
    search settings qdrant_rank ollama_embeddings q top_k score_threshold doc_id
           metadata_filter w = (Returned [], w1).
Proof.
  intros Hempty Hok Hans Hready.
  unfold search, _get_llm. unfold bind at 1. unfold ret at 1. unfold bind at 1.
  destruct (get_qdrant_served settings w Hans Hready)
    as (w0 & Hget & _ & _ & _ & Hfl & Hdim).
  rewrite Hget.
  destruct (LlmExtra.embed_answered_with ollama_embeddings
              (fun v => length v = qdrant_embedding_size settings) [q] w0 Hok)
    as (vs & Hembed & Hlen & Hsized).
  unfold bind at 1. rewrite Hembed.
  destruct vs as [|v vs]; [discriminate Hlen|].
  apply Forall_cons in Hsized as [Hv _].
  unfold bind at 1. store_steps. rewrite Hfl, Hans, Hdim, Hv, Nat.eqb_refl, Hempty.
  simpl. by eexists.
Qed.

Lemma query_on_returned_search q system_instructions top_k include_citations w docs w1 :
  search settings qdrant_rank ollama_embeddings q top_k None None None w
  = (Returned docs, w1) ->
  query settings qdrant_rank ollama_generate ollama_embeddings q system_instructions
        top_k include_citations w =
  match Llm.generate ollama_generate
          (build_rag_prompt q (format_context docs) system_instructions) w1 with
  | (Returned response, w2) =>
      (Returned (response, if include_citations then map citation docs else []), w2)
  | (Raised e, w2) => (Raised e, w2)
  end.
Proof.
  intros Hsearch. unfold query. unfold bind at 1. rewrite Hsearch.
  unfold _get_llm, bind, ret.
  destruct (Llm.generate ollama_generate _ w1) as [[response|e] w2]; [|done].
  destruct include_citations; [|done]. by rewrite citations_loop.
Qed.

Lemma search_empty_when_no_hit q top_k score_threshold doc_id metadata_filter w docs w1 :
  (forall points v flt k t, qdrant_rank points v flt k t = []) ->
  search settings qdrant_rank ollama_embeddings q top_k score_threshold doc_id
         metadata_filter w = (Returned docs, w1) ->
  docs = [].
Proof.
  intros Hempty Hrun.
  destruct (search_returned _ _ _ _ _ _ _ _ Hrun) as (v & _ & _ & Hid & _).
  cbv zeta in Hid. rewrite Hempty in Hid. by destruct docs.
Qed.

(** X18.  On an index that yields no hit, [query] sends a prompt without any
    context block (the system instructions, when given and not empty,
    then the question) and returns the generated text with an empty list
    of citations; this is so whenever the search returns, and the search
    does return when the embedding backend answers every request with a
    vector of the configured size, the vector store answers every call
    and its collection has the configured vector size or is yet to be
    created. *)
Theorem query_without_hits q system_instructions top_k include_citations w :
  (forall points v flt k t, qdrant_rank points v flt k t = []) ->
  build_rag_prompt q (format_context []) system_instructions =
    match system_instructions with
    | Some i => if String.eqb i "" then "Question: " +:+ q
                else i +:+ "

" +:+ "Question: " +:+ q
    | None => "Question: " +:+ q
    end /\
  (forall docs w1,
      search settings qdrant_rank ollama_embeddings q top_k None None None w
      = (Returned docs, w1) ->
      docs = [] /\
      query settings qdrant_rank ollama_generate ollama_embeddings q system_instructions
            top_k include_citations w =
      match Llm.generate ollama_generate
              (build_rag_prompt q (format_context []) system_instructions) w1 with
      | (Returned response, w2) => (Returned (response, []), w2)
      | (Raised e, w2) => (Raised e, w2)
      end) /\
  (embeddings_sized settings ollama_embeddings ->
   store_answers w -> store_ready settings w ->
   exists w1,
     search settings qdrant_rank ollama_embeddings q top_k None None None w
     = (Returned [], w1) /\
     query settings qdrant_rank ollama_generate ollama_embeddings q system_instructions
           top_k include_citations w =
     match Llm.generate ollama_generate
             (build_rag_prompt q (format_context []) system_instructions) w1 with
     | (Returned response, w2) => (Returned (response, []), w2)
     | (Raised e, w2) => (Raised e, w2)
     end).
Proof.
  intros Hempty.
  assert (Hquery : forall w1,
    search settings qdrant_rank ollama_embeddings q top_k None None None w
    = (Returned [], w1) ->
    query settings qdrant_rank ollama_generate ollama_embeddings q system_instructions
          top_k include_citations w =
    match Llm.generate ollama_generate
            (build_rag_prompt q (format_context []) system_instructions) w1 with
    | (Returned response, w2) => (Returned (response, []), w2)
    | (Raised e, w2) => (Raised e, w2)
    end).
  { intros w1 Hsearch.
    rewrite (query_on_returned_search _ _ _ _ _ _ _ Hsearch).
    destruct (Llm.generate ollama_generate _ w1) as [[response|e] w2]; [|done].
    by destruct include_citations. }
  split; [|split].
  - unfold build_rag_prompt, format_context, str_truthy. simpl.
    destruct system_instructions as [i|]; [|done].
    by destruct (String.eqb i "").
  - intros docs w1 Hsearch.
    pose proof (search_empty_when_no_hit _ _ _ _ _ _ _ _ Hempty Hsearch) as ->.
    split; [done|]. by apply Hquery.
  - intros Hok Hans Hready.
    destruct (search_on_empty_ranking q top_k None None None w Hempty Hok Hans Hready)
      as (w1 & Hsearch).
    exists w1. split; [exact Hsearch|]. by apply Hquery.
Qed.

End Pipeline.

Lemma answers_sized : embeddings_sized default_settings (constant_embeddings default_settings).
Proof. intros n t. eexists. split; [reflexivity|]. apply length_replicate. Qed.

Lemma initial_world_answers : store_answers initial_world.
Proof. by intros n. Qed.

Lemma initial_world_ready : store_ready default_settings initial_world.
Proof. by right. Qed.

Lemma index_document_stores_chunks_witness :
  exists vs w',
    index_document default_settings char_splitter (constant_embeddings default_settings)
                   "doc" "abc" None initial_world
    = (Returned (Z.of_nat (length (char_splitter "abc"))), w') /\
    length vs = length (char_splitter "abc") /\
    collection w' =
      collection initial_world ++
      points_from "doc" (length (char_splitter "abc")) None (uuids initial_world) 0
                  (zip (char_splitter "abc") vs) /\
    length (collection w')
    = (length (collection initial_world) + length (char_splitter "abc"))%nat /\
    requests w' = map PostEmbeddings (reverse (char_splitter "abc")) ++ requests initial_world /\
    store_fresh w' /\ store_answers w' /\ store_ready default_settings w'.
Proof.
  apply (index_document_stores_chunks default_settings char_splitter
           (constant_embeddings default_settings) "doc" "abc" None initial_world
           answers_sized initial_world_answers initial_world_ready).
  constructor.
Defined.

Lemma index_document_chunk_payloads_witness :
  {| point_id := 1%N; vector := sized_vector default_settings;
     payload := chunk_payload "doc" "b" 1 3 None |}
  ∈ collection initial_world \/
  exists (i : nat) chunk,
    char_splitter "abc" !! i = Some chunk /\
    (i < length (char_splitter "abc"))%nat /\
    chunk_payload "doc" "b" 1 3 None !! "doc_id"%string = Some (VStr "doc") /\
    chunk_payload "doc" "b" 1 3 None !! "content"%string = Some (VStr chunk) /\
    chunk_payload "doc" "b" 1 3 None !! "chunk_index"%string = Some (VInt (Z.of_nat i)) /\
    chunk_payload "doc" "b" 1 3 None !! "total_chunks"%string
    = Some (VInt (Z.of_nat (length (char_splitter "abc")))).
Proof.
  apply (index_document_chunk_payloads default_settings char_splitter
           (constant_embeddings default_settings) "doc" "abc" None initial_world
           ltac:(reflexivity) ltac:(reflexivity) ltac:(reflexivity) ltac:(reflexivity)
           {| point_id := 1%N; vector := sized_vector default_settings;
              payload := chunk_payload "doc" "b" 1 3 None |}).
  apply (list_elem_of_lookup_2 _ 1%nat). vm_compute. reflexivity.
Defined.

Lemma delete_document_unknown_id_witness :
  collection (snd (delete_document default_settings "other" (world_with_document 3)))
  = collection (world_with_document 3) /\
  (forall n,
      fst (delete_document default_settings "other" (world_with_document 3)) = Returned n ->
      n = 0) /\
  (store_answers (world_with_document 3) ->
   store_ready default_settings (world_with_document 3) ->
   exists w',
     delete_document default_settings "other" (world_with_document 3) = (Returned 0, w') /\
     requests w' = requests (world_with_document 3) /\
     uuids w' = uuids (world_with_document 3)).
Proof.
  apply (delete_document_unknown_id default_settings "other" (world_with_document 3)).
  vm_compute. reflexivity.
Defined.

(** Deleting ["doc"] from a collection that also holds a point of
    ["other"] removes one point and keeps that of ["other"]. *)
Lemma delete_document_keeps_others_witness :
  fst (delete_document default_settings "doc" Examples.world_with_two_documents)
  = Returned 1 /\
  Examples.other_point
  ∈ collection (snd (delete_document default_settings "doc"
                                     Examples.world_with_two_documents)).
Proof.
  split; [vm_compute; reflexivity|].
  apply (delete_document_keeps_others default_settings "doc"
           Examples.world_with_two_documents Examples.other_point).
  - apply (bool_decide_unpack _). vm_compute. reflexivity.
  - apply (list_elem_of_lookup_2 _ 1%nat). reflexivity.
  - vm_compute. reflexivity.
Defined.

Lemma index_then_delete_round_trip_witness :
  exists w1 w2 w3,
    index_document default_settings char_splitter (constant_embeddings default_settings)
                   "doc" "abc" None initial_world
    = (Returned (Z.of_nat (length (char_splitter "abc"))), w1) /\
    delete_document default_settings "doc" w1
    = (Returned (Z.of_nat (length (char_splitter "abc"))), w2) /\
    collection w2 = collection initial_world /\
    delete_document default_settings "doc" w2 = (Returned 0, w3) /\
    collection w3 = collection initial_world.
Proof.
  apply (index_then_delete_round_trip default_settings char_splitter
           (constant_embeddings default_settings) "doc" "abc" None initial_world
           answers_sized initial_world_answers initial_world_ready).
  - constructor.
  - reflexivity.
  - reflexivity.
  - vm_compute. lia.
Defined.

Lemma metadata_doc_id_hides_document_witness :
  exists w1 w2,
    index_document default_settings char_splitter (constant_embeddings default_settings)
                   "doc" "abc" Examples.foreign_metadata initial_world
    = (Returned (Z.of_nat (length (char_splitter "abc"))), w1) /\
    length (collection w1)
    = (length (collection initial_world) + length (char_splitter "abc"))%nat /\
    delete_document default_settings "doc" w1 = (Returned 0, w2) /\
    collection w2 = collection w1.
Proof.
  apply (metadata_doc_id_hides_document default_settings char_splitter
           (constant_embeddings default_settings) "doc" "abc"
           Examples.foreign_metadata (VStr "other") initial_world
           answers_sized initial_world_answers initial_world_ready).
  - constructor.
  - reflexivity.
  - vm_compute. reflexivity.
  - discriminate.
Defined.

(** A search with a result count of 0, a zero threshold, an empty document
    identifier and an empty metadata filter finds the stored point: the
    limit that reaches the ranking is the configured one, not 0. *)
Lemma search_falsy_arguments_witness :
  exists docs w',
    search default_settings Examples.rank_first (constant_embeddings default_settings)
           "refund policy" (Some 0) (Some (S754_zero false)) (Some ""%string) (Some ∅)
           (world_with_document 3) = (Returned docs, w') /\
    length docs = 1%nat /\
    exists query_vector query_filter limit threshold,
      map doc_ident docs
      = map hit_id (Examples.rank_first (collection (world_with_document 3)) query_vector
                                        query_filter limit threshold) /\
      (Some 0 = None \/ Some 0 = Some 0 -> limit = rag_top_k default_settings) /\
      (forall k, Some 0 = Some k -> k <> 0 -> limit = k) /\
      (Some (S754_zero false) = None \/
       (exists sign, Some (S754_zero false) = Some (S754_zero sign)) ->
       threshold = rag_score_threshold default_settings) /\
      (forall t, Some (S754_zero false) = Some t -> float_truthy t = true -> threshold = t) /\
      (Some ""%string = None \/ Some ""%string = Some ""%string ->
       Some (∅ : gmap string pyval) = None \/
       Some (∅ : gmap string pyval) = Some ∅ ->
       query_filter = None) /\
      (forall d, Some ""%string = Some d -> d <> ""%string ->
                 query_filter
                 = Some (("doc_id"%string, VStr d) ::
                         map_to_list (default ∅ (Some (∅ : gmap string pyval))))).
Proof.
  eexists _, _. split; [vm_compute; reflexivity|]. split; [reflexivity|].
  eapply (search_falsy_arguments default_settings Examples.rank_first
            (constant_embeddings default_settings) "refund policy"
            (Some 0) (Some (S754_zero false)) (Some ""%string) (Some ∅)
            (world_with_document 3)).
  vm_compute. reflexivity.
Defined.

Lemma search_documents_follow_hits_witness :
  exists docs w',
    search default_settings rank_all (constant_embeddings default_settings)
           "refund policy" None None None None
           (world_with_document 3) = (Returned docs, w') /\
    collection w' = collection (world_with_document 3) /\
    Forall (fun d => doc_metadata d !! "content"%string = None) docs /\
    exists query_vector query_filter limit threshold,
      let hits :=
        rank_all (collection (world_with_document 3)) query_vector query_filter limit
                 threshold in
      map doc_ident docs = map hit_id hits /\
      map doc_score docs = map (fun hit => Some (hit_score hit)) hits.
Proof.
  eexists _, _. split; [vm_compute; reflexivity|].
  eapply (search_documents_follow_hits default_settings rank_all
            (constant_embeddings default_settings)
            "refund policy" None None None None (world_with_document 3)).
  vm_compute. reflexivity.
Defined.

Lemma query_embedding_backend_down_witness :
  query default_settings rank_all (constant_reply "answer") unreachable "refund policy"
        None None true initial_world
  = match _get_qdrant default_settings initial_world with
    | (Returned _, w0) =>
        (Raised (PyException "ConnectError"),
         with_requests (replicate 3 (PostEmbeddings "refund policy")
                        ++ requests initial_world) w0)
    | (Raised e0, w0) => (Raised e0, w0)
    end /\
  (client_ready initial_world = true ->
   query default_settings rank_all (constant_reply "answer") unreachable "refund policy"
         None None true initial_world
   = (Raised (PyException "ConnectError"),
      with_requests (replicate 3 (PostEmbeddings "refund policy")
                     ++ requests initial_world) initial_world)) /\
  exists k : nat,
    (k = 0 \/ k = 3)%nat /\
    requests (snd (query default_settings rank_all (constant_reply "answer") unreachable
                         "refund policy" None None true initial_world))
    = replicate k (PostEmbeddings "refund policy") ++ requests initial_world.
Proof.
  apply (query_embedding_backend_down default_settings rank_all (constant_reply "answer")
           unreachable "refund policy" None None true (PyException "ConnectError")
           initial_world).
  reflexivity.
Defined.

(** With the vector store unreachable as well, the query raises the
    store's exception and no embedding is attempted. *)
Example query_store_unreachable :
  let '(r, w) :=
    query default_settings rank_all (constant_reply "answer") unreachable "refund policy"
          None None true store_down in
  r = Raised (PyException "ConnectError") /\ requests w = [].
Proof. vm_compute. by split. Qed.

Lemma query_without_hits_witness :
  build_rag_prompt "refund policy" (format_context []) None =
    "Question: " +:+ "refund policy" /\
  (forall docs w1,
      search default_settings Examples.rank_none (constant_embeddings default_settings)
             "refund policy" None None None None initial_world = (Returned docs, w1) ->
      docs = [] /\
      query default_settings Examples.rank_none (constant_reply "answer")
            (constant_embeddings default_settings) "refund policy" None None true
            initial_world =
      match Llm.generate (constant_reply "answer")
              (build_rag_prompt "refund policy" (format_context []) None) w1 with
      | (Returned response, w2) => (Returned (response, []), w2)
      | (Raised e, w2) => (Raised e, w2)
      end) /\
  (embeddings_sized default_settings (constant_embeddings default_settings) ->
   store_answers initial_world -> store_ready default_settings initial_world ->
   exists w1,
     search default_settings Examples.rank_none (constant_embeddings default_settings)
            "refund policy" None None None None initial_world = (Returned [], w1) /\
     query default_settings Examples.rank_none (constant_reply "answer")
           (constant_embeddings default_settings) "refund policy" None None true
           initial_world =
     match Llm.generate (constant_reply "answer")
             (build_rag_prompt "refund policy" (format_context []) None) w1 with
     | (Returned response, w2) => (Returned (response, []), w2)
     | (Raised e, w2) => (Raised e, w2)
     end).
Proof.
  apply (query_without_hits default_settings Examples.rank_none (constant_reply "answer")
           (constant_embeddings default_settings) "refund policy" None None true
           initial_world).
  reflexivity.
Defined.

End RagExtra.

(** ** [parse_command] *)

Module CommandsExtra.
Import Commands.

Section ParseCommand.
Variable Json : Type.
Variable json_loads : string -> outcome Json.
Variable ollama_generate : nat -> string -> outcome string.

(** X19.  [parse_command] never raises.  It returns the object decoded from
    the part of the reply between its first opening and its last closing
    brace when the backend answers, such a part exists and it decodes;
    in every other case (backend failure, no braces, undecodable text) it
    returns the dictionary built from the first two words of the text,
    the words being the runs of characters between whitespace.  Texts are
    made of characters below U+0100, with the whitespace Python knows in
    that range. *)
Theorem parse_command_never_raises text w :
  exists r w',
    parse_command Json json_loads ollama_generate text w = (Returned r, w') /\
    match Llm.generate ollama_generate (parse_prompt text) w with
    | (Returned response, w'') =>
        w' = w'' /\
        r = match search_braces response with
            | Some group =>
                match json_loads group with
                | Returned j => Decoded j
                | Raised _ => fallback Json text
                end
            | None => fallback Json text
            end
    | (Raised _, w'') => w' = w'' /\ r = fallback Json text
    end.
Proof.
  unfold parse_command, Router._get_llm, bind, try_except, ret, raise.
  destruct (Llm.generate ollama_generate (parse_prompt text) w) as [[response|e] w1];
    [|by eexists _, _].
  destruct (search_braces response) as [group|]; [|by eexists _, _].
  destruct (json_loads group) as [j|e]; by eexists _, _.
Qed.

End ParseCommand.

(** A no-break space separates words as a space does. *)
Example fallback_no_break_space :
  fallback unit ("a" +:+ String "160"%char "b c")
  = Words "a" (Some "b"%string) ("a" +:+ String "160"%char "b c").
Proof. reflexivity. Qed.

(** With the backend down the command is read from the words of the
    text. *)
Example parse_command_backend_unreachable :
  fst (parse_command unit (fun _ => Returned tt) Notions.unreachable "delete  report.txt now"
                     initial_world)
  = Returned (Words "delete" (Some "report.txt"%string) "delete  report.txt now").
Proof. vm_compute. reflexivity. Qed.

End CommandsExtra.

(** ** The search agent *)

Module SearchAgentExtra.
Import Rag SearchAgent Notions RagNotions RagFacts RagExtra.

Section Agent.
Variable settings : Settings.
Variable split_text : string -> list string.
Variable qdrant_rank :
  list Point -> list spec_float -> option (list (string * pyval)) -> Z -> spec_float ->
  list ScoredPoint.
Variable ollama_generate : nat -> string -> outcome string.
Variable ollama_embeddings : nat -> string -> outcome (list spec_float).
Variable ollama_generate_system : nat -> string -> string -> outcome string.

(** X20.  Whenever [index_document] returns, it returns the number of chunks
    of the content. *)
Theorem index_document_returns_chunk_count doc_id content metadata w n w' :
  index_document settings split_text ollama_embeddings doc_id content metadata w
  = (Returned n, w') ->
  n = Z.of_nat (length (split_text content)).
Proof. apply index_document_result. Qed.

Lemma answer_question_falls_back q top_k e w w1 :
  query settings qdrant_rank ollama_generate ollama_embeddings
        q (Some system_instructions) top_k true w = (Raised e, w1) ->
  _answer_question settings qdrant_rank ollama_generate ollama_embeddings
                   ollama_generate_system q top_k w =
  match generate_with_system ollama_generate_system
          ("Answer this question: " +:+ q) system_instructions w1 with
  | (Returned response, w') =>
      (Returned {| res_error := None;
                   res_message :=
                     Some (response +:+ "

*Note: Answered without document context.*");
                   res_citations := Some [];
                   res_count := Some 0 |}, w')
  | (Raised e', w') => (Raised e', w')
  end.
Proof.
  intros Hquery. unfold _answer_question, _get_rag. unfold bind at 1. unfold ret at 1.
  unfold try_except. unfold bind at 1. rewrite Hquery.
  unfold _get_llm. unfold bind at 1. unfold ret at 1. unfold bind, ret.
  by destruct (generate_with_system _ _ _ _) as [[response|e'] w'].
Qed.

(** X21.  When the query of the pipeline raises, whatever made it fail,
    [_answer_question] answers without retrieval: it asks the model
    directly and returns its reply followed by the note that no document
    context was used, with no citation and count 0; if that request fails
    as well, its exception is raised.  With the embedding backend down the
    query does raise, and once the pipeline holds its client the direct
    request follows the three embedding attempts. *)
Theorem answer_question_without_retrieval q top_k w :
  (forall e w1,
      query settings qdrant_rank ollama_generate ollama_embeddings
            q (Some system_instructions) top_k true w = (Raised e, w1) ->
      _answer_question settings qdrant_rank ollama_generate ollama_embeddings
                       ollama_generate_system q top_k w =
      match generate_with_system ollama_generate_system
              ("Answer this question: " +:+ q) system_instructions w1 with
      | (Returned response, w') =>
          (Returned {| res_error := None;
                       res_message :=
                         Some (response +:+ "

*Note: Answered without document context.*");
                       res_citations := Some [];
                       res_count := Some 0 |}, w')
      | (Raised e', w') => (Raised e', w')
      end) /\
  (forall e,
      (forall n t, ollama_embeddings n t = Raised e) ->
      (exists e' w1,
          query settings qdrant_rank ollama_generate ollama_embeddings
                q (Some system_instructions) top_k true w = (Raised e', w1)) /\
      (client_ready w = true ->
       _answer_question settings qdrant_rank ollama_generate ollama_embeddings
                        ollama_generate_system q top_k w =
       match generate_with_system ollama_generate_system
               ("Answer this question: " +:+ q) system_instructions
               (with_requests (replicate 3 (PostEmbeddings q) ++ requests w) w) with
       | (Returned response, w') =>
           (Returned {| res_error := None;
                        res_message :=
                          Some (response +:+ "

*Note: Answered without document context.*");
                        res_citations := Some [];
                        res_count := Some 0 |}, w')
       | (Raised e', w') => (Raised e', w')
       end)).
Proof.
  split; [intros e w1; apply answer_question_falls_back|].
  intros e Hdown.
  pose proof (query_raises_when_embedding_fails settings qdrant_rank ollama_generate
                ollama_embeddings q (Some system_instructions) top_k true e w Hdown)
    as Hquery.
  destruct (get_qdrant_frame settings w) as (r0 & w0 & Hget & _ & _ & _ & _ & Hkept).
  rewrite Hget in Hquery. split.
  - destruct r0 as [[]|e0]; rewrite Hquery; by eexists _, _.
  - intros Hready. destruct (Hkept Hready) as [-> ->].
    exact (answer_question_falls_back q top_k e w _ Hquery).
Qed.

(** X22.  On an index that yields no hit, [_answer_question] returns the
    generated text as it is, without sources and without the note on
    missing document context, with no citation and count 0; this is so
    whenever the search returns and the generation answers, and the search
    does return when the embedding backend answers every request with a
    vector of the configured size, the vector store answers every call
    and its collection has the configured vector size or is yet to be
    created. *)
Theorem answer_question_without_hits q top_k w :
  (forall points v flt k t, qdrant_rank points v flt k t = []) ->
  (forall docs w1 response w2,
      search settings qdrant_rank ollama_embeddings q top_k None None None w
      = (Returned docs, w1) ->
      Llm.generate ollama_generate
        (build_rag_prompt q (format_context []) (Some system_instructions)) w1
      = (Returned response, w2) ->
      _answer_question settings qdrant_rank ollama_generate ollama_embeddings
                       ollama_generate_system q top_k w
      = (Returned {| res_error := None; res_message := Some response;
                     res_citations := Some []; res_count := Some 0 |}, w2)) /\
  (embeddings_sized settings ollama_embeddings ->
   store_answers w -> store_ready settings w ->
   exists w1,
     search settings qdrant_rank ollama_embeddings q top_k None None None w
     = (Returned [], w1) /\
     forall response w2,
       Llm.generate ollama_generate
         (build_rag_prompt q (format_context []) (Some system_instructions)) w1
       = (Returned response, w2) ->
       _answer_question settings qdrant_rank ollama_generate ollama_embeddings
                        ollama_generate_system q top_k w
       = (Returned {| res_error := None; res_message := Some response;
                      res_citations := Some []; res_count := Some 0 |}, w2)).
Proof.
  intros Hempty.
  assert (Hanswer : forall docs w1 response w2,
    search settings qdrant_rank ollama_embeddings q top_k None None None w
    = (Returned docs, w1) ->
    Llm.generate ollama_generate
      (build_rag_prompt q (format_context []) (Some system_instructions)) w1
    = (Returned response, w2) ->
    _answer_question settings qdrant_rank ollama_generate ollama_embeddings
                     ollama_generate_system q top_k w
    = (Returned {| res_error := None; res_message := Some response;
                   res_citations := Some []; res_count := Some 0 |}, w2)).
  { intros docs w1 response w2 Hsearch Hgen.
    pose proof (search_empty_when_no_hit settings qdrant_rank ollama_embeddings
                  _ _ _ _ _ _ _ _ Hempty Hsearch) as ->.
    pose proof (query_on_returned_search settings qdrant_rank ollama_generate
                  ollama_embeddings q (Some system_instructions) top_k true w [] w1 Hsearch)
      as Hquery.
    rewrite Hgen in Hquery.
    unfold _answer_question, _get_rag. unfold bind at 1. unfold ret at 1.
    unfold try_except. unfold bind at 1. by rewrite Hquery. }
  split; [exact Hanswer|].
  intros Hok Hans Hready.
  destruct (search_on_empty_ranking settings qdrant_rank ollama_embeddings
              q top_k None None None w Hempty Hok Hans Hready) as (w1 & Hsearch).
  exists w1. split; [exact Hsearch|]. intros response w2. exact (Hanswer [] w1 response w2 Hsearch).
Qed.

(** X23.  [_index_document] never raises.  Without a document identifier or
    without content it reports the matching error and touches neither the
    backend nor the store.  Otherwise it calls [index_document]: when that
    returns, the result has no error, carries the count returned, which is
    the number of chunks of the content, and names the document and that
    count in its message; when that raises, the result is the error
    "Failed to index document: " followed by the text of the exception. *)
Theorem index_agent_never_raises doc_id content w :
  _index_document settings split_text ollama_embeddings doc_id content w =
  (if missing doc_id then
     (Returned (error_result (ErrPlain "Please specify a document ID")), w)
   else if missing content then
     (Returned (error_result (ErrPlain "Please provide document content to index")), w)
   else
     match index_document settings split_text ollama_embeddings
                          (default ""%string doc_id) (default ""%string content) None w with
     | (Returned chunks, w') =>
         (Returned {| res_error := None;
                      res_message :=
                        Some ("**Document Indexed**

" +:+ "- Document ID: " +:+ default ""%string doc_id +:+ "
" +:+ "- Chunks created: " +:+ pretty chunks +:+ "
" +:+ "- Status: Indexed and searchable");
                      res_citations := None;
                      res_count := Some chunks |}, w')
     | (Raised e, w') =>
         (Returned (error_result (ErrException "Failed to index document: " e)), w')
     end) /\
  exists res w',
    _index_document settings split_text ollama_embeddings doc_id content w
    = (Returned res, w') /\
    (res_error res = None ->
     missing doc_id = false /\ missing content = false /\
     res_count res = Some (Z.of_nat (length (split_text (default ""%string content))))).
Proof.
  assert (Heq :
    _index_document settings split_text ollama_embeddings doc_id content w =
    (if missing doc_id then
       (Returned (error_result (ErrPlain "Please specify a document ID")), w)
     else if missing content then
       (Returned (error_result (ErrPlain "Please provide document content to index")), w)
     else
       match index_document settings split_text ollama_embeddings
                            (default ""%string doc_id) (default ""%string content) None w with
       | (Returned chunks, w') =>
           (Returned {| res_error := None;
                        res_message :=
                          Some ("**Document Indexed**

" +:+ "- Document ID: " +:+ default ""%string doc_id +:+ "
" +:+ "- Chunks created: " +:+ pretty chunks +:+ "
" +:+ "- Status: Indexed and searchable");
                        res_citations := None;
                        res_count := Some chunks |}, w')
       | (Raised e, w') =>
           (Returned (error_result (ErrException "Failed to index document: " e)), w')
       end)).
  { unfold _index_document.
    destruct (missing doc_id); [done|]. destruct (missing content); [done|].
    unfold _get_rag. unfold bind at 1. unfold ret at 1. unfold try_except, bind.
    by destruct (index_document settings split_text ollama_embeddings _ _ None w)
      as [[n|e] w1]. }
  split; [exact Heq|]. rewrite Heq.
  destruct (missing doc_id); [by eexists _, _|].
  destruct (missing content); [by eexists _, _|].
  destruct (index_document settings split_text ollama_embeddings _ _ None w)
    as [[n|e] w1] eqn:Hidx; [|by eexists _, _].
  eexists _, _. split; [reflexivity|]. intros _. do 2 (split; [done|]).
  simpl. f_equal. by eapply index_document_result.
Qed.

(** X24.  [_delete_document] never raises.  Without a document identifier
    it reports an error and touches nothing.  Otherwise it calls
    [delete_document]: when that returns, the result has no error, carries
    the count returned, which is the number of stored points of the
    document capped at 1000, and names the document and that count in its
    message; when that raises, the result is the error "Failed to delete
    document: " followed by the text of the exception.  The deletion does
    return when the vector store answers every call and its collection has
    the configured vector size or is yet to be created. *)
Theorem delete_agent_reports_count doc_id w :
  _delete_document settings doc_id w =
  (if missing doc_id then
     (Returned (error_result (ErrPlain "Please specify a document ID to delete")), w)
   else
     match delete_document settings (default ""%string doc_id) w with
     | (Returned deleted, w') =>
         (Returned {| res_error := None;
                      res_message :=
                        Some ("**Document Deleted**

" +:+ "- Document ID: " +:+ default ""%string doc_id +:+ "
" +:+ "- Chunks removed: " +:+ pretty deleted);
                      res_citations := None;
                      res_count := Some deleted |}, w')
     | (Raised e, w') =>
         (Returned (error_result (ErrException "Failed to delete document: " e)), w')
     end) /\
  exists res w',
    _delete_document settings doc_id w = (Returned res, w') /\
    (res_error res = None ->
     missing doc_id = false /\
     res_count res
     = Some (Z.of_nat (length (points_of (default ""%string doc_id) w) `min` 1000))) /\
    (missing doc_id = false -> store_answers w -> store_ready settings w ->
     res_error res = None).
Proof.
  assert (Heq :
    _delete_document settings doc_id w =
    (if missing doc_id then
       (Returned (error_result (ErrPlain "Please specify a document ID to delete")), w)
     else
       match delete_document settings (default ""%string doc_id) w with
       | (Returned deleted, w') =>
           (Returned {| res_error := None;
                        res_message :=
                          Some ("**Document Deleted**

" +:+ "- Document ID: " +:+ default ""%string doc_id +:+ "
" +:+ "- Chunks removed: " +:+ pretty deleted);
                        res_citations := None;
                        res_count := Some deleted |}, w')
       | (Raised e, w') =>
           (Returned (error_result (ErrException "Failed to delete document: " e)), w')
       end)).
  { unfold _delete_document. destruct (missing doc_id); [done|].
    unfold _get_rag. unfold bind at 1. unfold ret at 1. unfold try_except, bind.
    by destruct (delete_document settings _ w) as [[n|e] w1]. }
  split; [exact Heq|]. rewrite Heq.
  destruct (missing doc_id) eqn:Hd; [eexists _, _; by repeat split|].
  destruct (delete_document_cases settings (default ""%string doc_id) w)
    as (r & w1 & Hdel & _ & _ & _ & _ & Hret).
  pose proof (delete_document_eq settings (default ""%string doc_id) w) as Hserved.
  rewrite Hdel in *. destruct r as [n|e].
  - eexists _, _. split; [reflexivity|]. split; [|done].
    intros _. split; [done|]. simpl. destruct (Hret n eq_refl) as [-> _].
    rewrite length_map, length_take. do 2 f_equal. lia.
  - eexists _, _. split; [reflexivity|]. split; [done|].
    intros _ Hans Hready. destruct (Hserved Hans Hready) as (w2 & Habs & _). discriminate Habs.
Qed.

End Agent.

Lemma index_document_returns_chunk_count_witness :
  exists n w',
    index_document default_settings char_splitter (constant_embeddings default_settings)
                   "doc" "abc" None initial_world
    = (Returned n, w') /\
    n = Z.of_nat (length (char_splitter "abc")).
Proof.
  eexists _, _. split; [vm_compute; reflexivity|].
  eapply (index_document_returns_chunk_count default_settings char_splitter
            (constant_embeddings default_settings) "doc" "abc" None initial_world).
  vm_compute. reflexivity.
Defined.

Lemma answer_question_without_hits_witness :
  (forall docs w1 response w2,
      search default_settings Examples.rank_none (constant_embeddings default_settings)
             "refund policy" None None None None initial_world = (Returned docs, w1) ->
      Llm.generate (constant_reply "answer")
        (build_rag_prompt "refund policy" (format_context []) (Some system_instructions)) w1
      = (Returned response, w2) ->
      _answer_question default_settings Examples.rank_none (constant_reply "answer")
                       (constant_embeddings default_settings)
                       (fun _ _ _ => Returned "direct"%string)
                       "refund policy" None initial_world
      = (Returned {| res_error := None; res_message := Some response;
                     res_citations := Some []; res_count := Some 0 |}, w2)) /\
  (embeddings_sized default_settings (constant_embeddings default_settings) ->
   store_answers initial_world -> store_ready default_settings initial_world ->
   exists w1,
     search default_settings Examples.rank_none (constant_embeddings default_settings)
            "refund policy" None None None None initial_world = (Returned [], w1) /\
     forall response w2,
       Llm.generate (constant_reply "answer")
         (build_rag_prompt "refund policy" (format_context []) (Some system_instructions)) w1
       = (Returned response, w2) ->
       _answer_question default_settings Examples.rank_none (constant_reply "answer")
                        (constant_embeddings default_settings)
                        (fun _ _ _ => Returned "direct"%string)
                        "refund policy" None initial_world
       = (Returned {| res_error := None; res_message := Some response;
                      res_citations := Some []; res_count := Some 0 |}, w2)).
Proof.
  apply (answer_question_without_hits default_settings Examples.rank_none
           (constant_reply "answer") (constant_embeddings default_settings)
           (fun _ _ _ => Returned "direct"%string)
           "refund policy" None initial_world).
  reflexivity.
Defined.

(** With the vector store unreachable the question is answered by the
    model alone, and the deletion and the indexing report the failure. *)
Example agent_store_unreachable :
  fst (_answer_question default_settings rank_all (constant_reply "answer")
                        (constant_embeddings default_settings)
                        (fun _ _ _ => Returned "direct"%string)
                        "refund policy" None store_down)
  = Returned {| res_error := None;
                res_message := Some ("direct" +:+ "

*Note: Answered without document context.*");
                res_citations := Some [];
                res_count := Some 0 |} /\
  fst (_delete_document default_settings (Some "doc"%string) store_down)
  = Returned (error_result (ErrException "Failed to delete document: "
                                         (PyException "ConnectError"))) /\
  fst (_index_document default_settings char_splitter (constant_embeddings default_settings)
                       (Some "doc"%string) (Some "abc"%string) store_down)
  = Returned (error_result (ErrException "Failed to index document: "
                                         (PyException "ConnectError"))).
Proof. vm_compute. by repeat split. Qed.

End SearchAgentExtra.
